(** * Section extraction of the PM Assistant backend (backend/main.py)

    A shallow embedding of the two request pipelines of [backend/main.py]:
    request validation, the completion call (an external collaborator, taken
    as a function), the regular-expression based section extractor and the
    response assembler.

    Python [str] values are sequences of Unicode code points, so a string is
    a [list N]; slicing, [len] and the regular expressions all count code
    points, never bytes. *)

From Stdlib Require Import String Ascii.
From Stdlib Require Import List NArith Bool Arith Lia.
Import ListNotations.

(* ================================================================== *)
(** * Strings *)

Module Str.

Definition char := N.
Definition str := list char.

(** The bytes of a literal of this file (UTF-8, as the Python source is). *)
Fixpoint bytes (s : string) : list N :=
  match s with
  | EmptyString => []
  | String a s' => N_of_ascii a :: bytes s'
  end.

(** UTF-8 decoding of well-formed input: one code point per sequence. *)
Fixpoint utf8 (bs : list N) : str :=
  match bs with
  | [] => []
  | b0 :: t0 =>
    if (b0 <? 128)%N then b0 :: utf8 t0
    else if (b0 <? 224)%N then
      match t0 with
      | b1 :: t1 => ((b0 - 192) * 64 + (b1 - 128))%N :: utf8 t1
      | _ => []
      end
    else if (b0 <? 240)%N then
      match t0 with
      | b1 :: b2 :: t2 =>
        ((b0 - 224) * 4096 + (b1 - 128) * 64 + (b2 - 128))%N :: utf8 t2
      | _ => []
      end
    else
      match t0 with
      | b1 :: b2 :: b3 :: t3 =>
        ((b0 - 240) * 262144 + (b1 - 128) * 4096
         + (b2 - 128) * 64 + (b3 - 128))%N :: utf8 t3
      | _ => []
      end
  end.

(** [u "..."] is the Python string written between the quotes. *)
Definition u (s : string) : str := utf8 (bytes s).

Definition nl : char := 10%N.

(** [str.isspace] of one character: CPython's [_PyUnicode_IsWhitespace]. *)
Definition isspace (c : char) : bool :=
  ((9 <=? c) && (c <=? 13) || (28 <=? c) && (c <=? 32)
   || (c =? 133) || (c =? 160) || (c =? 5760)
   || (8192 <=? c) && (c <=? 8202)
   || (c =? 8232) || (c =? 8233) || (c =? 8239) || (c =? 8287)
   || (c =? 12288))%N.

Fixpoint lstrip (s : str) : str :=
  match s with
  | [] => []
  | c :: s' => if isspace c then lstrip s' else s
  end.

Definition rstrip (s : str) : str := rev (lstrip (rev s)).

(** [s.strip()] with no argument. *)
Definition strip (s : str) : str := rstrip (lstrip s).

(** [s[len(l):]] when [s.startswith(l)]. *)
Fixpoint after (l s : str) : option str :=
  match l, s with
  | [], _ => Some s
  | c :: l', c' :: s' => if (c =? c')%N then after l' s' else None
  | _ :: _, [] => None
  end.

Definition startswith (l s : str) : bool :=
  match after l s with Some _ => true | None => false end.

(** [l in s]: [l] occurs in [s] as a contiguous substring. *)
Fixpoint contains (l s : str) : bool :=
  startswith l s || match s with [] => false | _ :: s' => contains l s' end.

(** [s.split("\n")]: the lines of [s]. *)
Fixpoint lines (s : str) : list str :=
  match s with
  | [] => [[]]
  | c :: s' =>
    if (c =? nl)%N then [] :: lines s'
    else match lines s' with
         | l :: ls => (c :: l) :: ls
         | [] => [[c]]
         end
  end.

(** Truth value of a string or list: non-empty. *)
Definition truthy {A} (l : list A) : bool :=
  match l with [] => false | _ :: _ => true end.

(** [s[:n]] and [s[a:b]] for non-negative constants [a <= b]. *)
Definition slice_to {A} (n : nat) (s : list A) : list A := firstn n s.
Definition slice {A} (a b : nat) (s : list A) : list A :=
  firstn (b - a) (skipn a s).

End Str.

Import Str.

(* ================================================================== *)
(** * The fragment of Python's [re] that the extractor uses *)

Module Re.

(** Syntax of the patterns of [main.py]. Each pattern has at most one
    capturing group. There is no look-behind, [^] or [\b] in any of them, so
    whether a pattern matches at a position depends only on the text from
    that position on, and the matcher works on suffixes. *)
Inductive regex : Type :=
| Eps
| Lit (c : char)              (* a literal character *)
| Cat (r1 r2 : regex)
| Alt (r1 r2 : regex)         (* r1|r2 *)
| LazyDot                     (* .*? *)
| Group (r : regex)           (* ( r ), group 1 *)
| Ahead (r : regex)           (* (?= r ) *)
| Dollar.                     (* $ without re.MULTILINE *)

(** A literal string, character by character. *)
Fixpoint lits (l : str) : regex :=
  match l with
  | [] => Eps
  | c :: l' => Cat (Lit c) (lits l')
  end.

(** What [.] accepts: everything under [re.DOTALL], everything but a
    newline otherwise. *)
Definition dot_ok (dotall : bool) (c : char) : bool :=
  dotall || negb (c =? nl)%N.

(** [$] without [re.MULTILINE]: at the end of the text, or just before a
    newline that is its last character. *)
Definition at_dollar (s : str) : bool :=
  match s with
  | [] => true
  | [c] => (c =? nl)%N
  | _ => false
  end.

(** A successful match: group 1 (if it took part) and the text that
    follows the match. *)
Definition result : Type := option str * str.

Section Matcher.
Variable dotall : bool.

(** [.*?]: the shortest extension first, one more character on failure. *)
Fixpoint lazy_dot (s : str) (k : str -> option result) : option result :=
  match k s with
  | Some x => Some x
  | None =>
    match s with
    | [] => None
    | c :: s' => if dot_ok dotall c then lazy_dot s' k else None
    end
  end.

(** Backtracking matcher in continuation-passing style: [k] is what is
    left of the pattern, alternatives are tried left to right. *)
Fixpoint run (r : regex) (s : str) (g : option str)
         (k : str -> option str -> option result) : option result :=
  match r with
  | Eps => k s g
  | Lit c =>
    match s with
    | c' :: s' => if (c =? c')%N then k s' g else None
    | [] => None
    end
  | Cat r1 r2 => run r1 s g (fun s' g' => run r2 s' g' k)
  | Alt r1 r2 =>
    match run r1 s g k with
    | Some x => Some x
    | None => run r2 s g k
    end
  | LazyDot => lazy_dot s (fun s' => k s' g)
  | Group r1 =>
    run r1 s g (fun s' _ => k s' (Some (firstn (length s - length s') s)))
  | Ahead r1 =>
    match run r1 s g (fun s' g' => Some (g', s')) with
    | Some _ => k s g
    | None => None
    end
  | Dollar => if at_dollar s then k s g else None
  end.

(** The pattern anchored at the start of [s]. *)
Definition match_here (r : regex) (s : str) : option result :=
  run r s None (fun s' g => Some (g, s')).

(** [re.search]: the first start position, from the left, with a match. *)
Fixpoint search (r : regex) (s : str) : option result :=
  match match_here r s with
  | Some x => Some x
  | None =>
    match s with
    | [] => None
    | _ :: s' => search r s'
    end
  end.

(** [re.findall] for a pattern with one group: the group of every match,
    each search resuming where the previous match ended. Both patterns
    that [main.py] gives to [findall] begin with the literal [- ], so a
    match is never empty and the text left shrinks with every match;
    [fuel] bounds the number of matches and [findall] gives it more than
    the text can use (lemma [findall_fuel_enough] below). *)
Fixpoint findall_fuel (fuel : nat) (r : regex) (s : str) : list str :=
  match fuel with
  | O => []
  | S fuel' =>
    match search r s with
    | None => []
    | Some (g, rest) =>
      match g with Some x => x | None => [] end :: findall_fuel fuel' r rest
    end
  end.

Definition findall (r : regex) (s : str) : list str :=
  findall_fuel (S (length s)) r s.

End Matcher.

(** [m.group(1)] of a match object. *)
Definition group1 (m : result) : str :=
  match fst m with Some x => x | None => [] end.

End Re.

Import Re.

(* ================================================================== *)
(** * The service *)

Open Scope string_scope.
Open Scope list_scope.

(** ** Data model (the pydantic models of [main.py]) *)

Record PRDRequest : Type := {
  feature_idea : str;
  target_audience : str;
  problem_statement : str
}.

Record PRDResponse : Type := {
  prd_document : str;
  user_stories : list str;
  success_metrics : list str;
  timeline : str;
  risks : list str
}.

Record APIDocRequest : Type := {
  code : str;
  language : str;
  project_name : str
}.

(** One entry of [code_examples]: the dict with the keys ["language"] and
    ["code"]. *)
Record code_example : Type := {
  ex_language : str;
  ex_code : str
}.

Record APIDocResponse : Type := {
  openapi_spec : str;
  markdown_docs : str;
  code_examples : list code_example
}.

(** What a handler gives back: the response model (HTTP 200), or the
    [HTTPException] it raised. *)
Inductive http (A : Type) : Type :=
| Ok (body : A)
| HTTPException (status_code : N) (detail : str).
Arguments Ok {A} body.
Arguments HTTPException {A} status_code detail.

Definition status {A} (r : http A) : N :=
  match r with
  | Ok _ => 200%N
  | HTTPException c _ => c
  end.

(** The completion call [client.chat.completions.create(...)] followed by
    [.choices[0].message.content]: it raises an exception [e] (kept as
    [str(e)]), yields the reply text, a [str], or yields [None] (the
    content of a message is optional). The client is an external
    collaborator, a function of the system message and the prompt; the model
    name and the sampling parameters are constants of each handler. *)
Inductive completion : Type :=
| Raised (e : str)
| Content (response_text : str)
| NoContent.

(** [str(e)] of the [TypeError] that [re.search(pattern, None, ...)]
    raises (the wording of CPython 3.11 and later). *)
Definition none_type_error : str :=
  u "expected string or bytes-like object, got 'NoneType'".

Definition client_t : Type := str -> str -> completion.

(** ** Prompt builders *)

Definition prd_prompt (request : PRDRequest) : str :=
  u "You are an expert Product Manager. Generate a comprehensive PRD (Product Requirements Document) for this feature.

FEATURE IDEA: "
  ++ feature_idea request
  ++ u "

TARGET AUDIENCE: "
  ++ target_audience request
  ++ u "

PROBLEM STATEMENT: "
  ++ problem_statement request
  ++ u "

Generate the following sections:

## 📋 PRD Document
[Complete PRD with:
- Overview
- Problem Statement
- Solution
- User Benefits
- Success Criteria
- Risks & Mitigation
- Implementation Timeline]

## 👤 User Stories
- As a [user], I want [feature] so that [benefit]
[3-5 user stories]

## 📊 Success Metrics
- Metric 1: [Description and target]
- Metric 2: [Description and target]
[3-5 metrics]

## ⏱️ Timeline
[Estimated weeks to implement]

## ⚠️ Risks
- Risk 1: [Description] → Mitigation: [How to handle]
[3-5 risks]

Format with clear sections separated by ---".

Definition api_prompt (request : APIDocRequest) : str :=
  u "You are an expert API documentation specialist. Generate professional API documentation from this code.

PROJECT: "
  ++ project_name request
  ++ u "
LANGUAGE: "
  ++ language request
  ++ u "

CODE:

Generate the following:

## 📚 API Documentation (Markdown)
[Professional markdown documentation with:
- Overview
- Base URL
- Authentication
- Endpoints (method, path, description, parameters, response)
- Error codes
- Rate limiting
- Examples]

## 🔗 OpenAPI Spec
[Valid OpenAPI 3.0.0 JSON spec]

## 💻 Code Examples
[Working code examples in "
  ++ language request
  ++ u " and JavaScript]

Format with clear sections separated by ---SEPARATOR---".

Definition prd_system : str :=
  u "You are an expert Product Manager with 15+ years experience. Generate professional PRDs that are clear, actionable, and business-focused.".

Definition api_system : str :=
  u "You are an expert API documentation specialist. Create clear, professional API documentation with valid OpenAPI specs and practical code examples.".

(** ** Patterns of the section extractor *)

(** The look-ahead of the PRD patterns, [(?=H|---|\\Z)] in a raw string:
    the last alternative is an escaped backslash followed by the letter Z,
    two literal characters, not the end-of-text anchor. *)
Definition prd_ahead (marker : str) : regex :=
  Ahead (Alt (lits marker) (Alt (lits (u "---")) (lits (u "\Z")))).

(** r'## 👤 User Stories(.*?)(?=## |---|\\Z)' *)
Definition stories_re : regex :=
  Cat (lits (u "## 👤 User Stories"))
      (Cat (Group LazyDot) (prd_ahead (u "## "))).

(** r'- (As a.*?)(?:\n|$)' *)
Definition story_item_re : regex :=
  Cat (lits (u "- "))
      (Cat (Group (Cat (lits (u "As a")) LazyDot)) (Alt (Lit nl) Dollar)).

(** r'## 📊 Success Metrics(.*?)(?=## |---|\\Z)' *)
Definition metrics_re : regex :=
  Cat (lits (u "## 📊 Success Metrics"))
      (Cat (Group LazyDot) (prd_ahead (u "## "))).

(** r'- (.*?)(?:\n|$)' *)
Definition bullet_item_re : regex :=
  Cat (lits (u "- ")) (Cat (Group LazyDot) (Alt (Lit nl) Dollar)).

(** r'## ⏱️ Timeline\n(.*?)(?=##|---|\\Z)' *)
Definition timeline_re : regex :=
  Cat (lits (u "## ⏱️ Timeline" ++ [nl]))
      (Cat (Group LazyDot) (prd_ahead (u "##"))).

(** r'## ⚠️ Risks(.*?)(?=##|---|\\Z)' *)
Definition risks_re : regex :=
  Cat (lits (u "## ⚠️ Risks"))
      (Cat (Group LazyDot) (prd_ahead (u "##"))).

(** r'## 📚 API Documentation.*?\n(.*?)(?=## 🔗|---SEPARATOR---|$)' *)
Definition markdown_re : regex :=
  Cat (lits (u "## 📚 API Documentation"))
      (Cat LazyDot
           (Cat (Lit nl)
                (Cat (Group LazyDot)
                     (Ahead (Alt (lits (u "## 🔗"))
                                 (Alt (lits (u "---SEPARATOR---")) Dollar)))))).

(** r'## 🔗 OpenAPI Spec\n(.*?)(?=## 💻|---SEPARATOR---|$)' *)
Definition openapi_re : regex :=
  Cat (lits (u "## 🔗 OpenAPI Spec" ++ [nl]))
      (Cat (Group LazyDot)
           (Ahead (Alt (lits (u "## 💻"))
                       (Alt (lits (u "---SEPARATOR---")) Dollar)))).

(** r'## 💻 Code Examples\n(.*?)$' *)
Definition examples_re : regex :=
  Cat (lits (u "## 💻 Code Examples" ++ [nl])) (Cat (Group LazyDot) Dollar).

(** Every search of [main.py] passes [re.DOTALL]; the [findall] calls pass
    no flag. *)
Definition re_search : regex -> str -> option result := search true.
Definition re_findall : regex -> str -> list str := findall false.

(** ** PRD pipeline, lines 155-194 *)

(** [[x.strip() for x in items if x.strip()]] *)
Definition strip_nonempty (items : list str) : list str :=
  map strip (filter (fun x => truthy (strip x)) items).

(** The list [user_stories] before the response is assembled. *)
Definition parse_user_stories (response_text : str) : list str :=
  match re_search stories_re response_text with
  | Some stories_match =>
    let stories_text := group1 stories_match in
    let stories := re_findall story_item_re stories_text in
    strip_nonempty stories
  | None => []
  end.

Definition parse_success_metrics (response_text : str) : list str :=
  match re_search metrics_re response_text with
  | Some metrics_match =>
    let metrics_text := group1 metrics_match in
    let metrics := re_findall bullet_item_re metrics_text in
    strip_nonempty metrics
  | None => []
  end.

Definition default_timeline : str := u "2-4 weeks".

Definition parse_timeline (response_text : str) : str :=
  match re_search timeline_re response_text with
  | Some timeline_match => strip (group1 timeline_match)
  | None => default_timeline
  end.

Definition parse_risks (response_text : str) : list str :=
  match re_search risks_re response_text with
  | Some risks_match =>
    let risks_text := group1 risks_match in
    let risk_items := re_findall bullet_item_re risks_text in
    strip_nonempty risk_items
  | None => []
  end.

Definition default_user_stories : list str :=
  [u "As a user, I want this feature so I can achieve my goals"].
Definition default_success_metrics : list str :=
  [u "Adoption rate"; u "User engagement"; u "Time saved"].
Definition default_risks : list str :=
  [u "Technical complexity"; u "User adoption"; u "Timeline risk"].

(** [xs[:5] if xs else default] *)
Definition first5_or (xs default : list str) : list str :=
  if truthy xs then slice_to 5 xs else default.

Definition prd_response (response_text : str) : PRDResponse :=
  let prd_doc := response_text in
  let user_stories := parse_user_stories response_text in
  let success_metrics := parse_success_metrics response_text in
  let timeline := parse_timeline response_text in
  let risks := parse_risks response_text in
  {| prd_document := prd_doc;
     user_stories := first5_or user_stories default_user_stories;
     success_metrics := first5_or success_metrics default_success_metrics;
     timeline := timeline;
     risks := first5_or risks default_risks |}.

(** The handler of POST /api/generate-prd. What it prints is not modelled. *)
Definition generate_prd (client : client_t) (request : PRDRequest)
  : http PRDResponse :=
  if negb (truthy (strip (feature_idea request))) then
    HTTPException 400 (u "Feature idea cannot be empty")
  else
    let prompt := prd_prompt request in
    match client prd_system prompt with
    | Content response_text => Ok (prd_response response_text)
    | Raised e => HTTPException 500 (u "Error generating PRD: " ++ e)
    | NoContent =>
      (* the first [re.search] raises inside the [try] *)
      HTTPException 500 (u "Error generating PRD: " ++ none_type_error)
    end.

(** ** API documentation pipeline, lines 267-299 *)

Definition parse_markdown_docs (response_text : str) : str :=
  match re_search markdown_re response_text with
  | Some markdown_match => strip (group1 markdown_match)
  | None => []
  end.

Definition parse_openapi_spec (response_text : str) : str :=
  match re_search openapi_re response_text with
  | Some openapi_match => strip (group1 openapi_match)
  | None => []
  end.

Definition parse_code_examples (request : APIDocRequest) (response_text : str)
  : list code_example :=
  match re_search examples_re response_text with
  | Some examples_match =>
    let examples_text := group1 examples_match in
    [ {| ex_language := language request;
         ex_code := slice_to 500 examples_text |};
      {| ex_language := u "JavaScript";
         ex_code := if (500 <? length examples_text)%nat
                    then slice 500 1000 examples_text
                    else examples_text |} ]
  | None => []
  end.

Definition dq : str := [34%N].

(** '{"openapi": "3.0.0", "info": {"title": "API"}}' *)
Definition default_openapi_spec : str :=
  u "{" ++ dq ++ u "openapi" ++ dq ++ u ": " ++ dq ++ u "3.0.0" ++ dq
  ++ u ", " ++ dq ++ u "info" ++ dq ++ u ": {" ++ dq ++ u "title" ++ dq
  ++ u ": " ++ dq ++ u "API" ++ dq ++ u "}}".

(** "# API Documentation\n\nAPI endpoints and usage information." *)
Definition default_markdown_docs : str :=
  u "# API Documentation" ++ [nl; nl]
  ++ u "API endpoints and usage information.".

Definition default_code_examples (request : APIDocRequest)
  : list code_example :=
  [ {| ex_language := language request; ex_code := u "# Example usage" |} ].

Definition api_response (request : APIDocRequest) (response_text : str)
  : APIDocResponse :=
  let markdown_docs := parse_markdown_docs response_text in
  let openapi_spec := parse_openapi_spec response_text in
  let code_examples := parse_code_examples request response_text in
  {| openapi_spec :=
       if truthy openapi_spec then openapi_spec else default_openapi_spec;
     markdown_docs :=
       if truthy markdown_docs then markdown_docs else default_markdown_docs;
     code_examples :=
       if truthy code_examples then code_examples
       else default_code_examples request |}.

(** The handler of POST /api/generate-api-docs. *)
Definition generate_api_docs (client : client_t) (request : APIDocRequest)
  : http APIDocResponse :=
  if negb (truthy (strip (code request))) then
    HTTPException 400 (u "Code cannot be empty")
  else
    let prompt := api_prompt request in
    match client api_system prompt with
    | Content response_text => Ok (api_response request response_text)
    | Raised e => HTTPException 500 (u "Error generating API docs: " ++ e)
    | NoContent =>
      HTTPException 500 (u "Error generating API docs: " ++ none_type_error)
    end.

(** ** Static pages, lines 60-77 *)

(** What [open(path, "r", encoding='utf-8')] followed by [f.read()] gives:
    the text of the file, [FileNotFoundError], or another exception (kept
    as [str(e)]), which the handlers do not catch. *)
Inductive opened : Type :=
| Read (content : str)
| FileNotFoundError
| OtherError (e : str).

Definition filesystem : Type := str -> opened.

(** An [HTMLResponse] (its status code is the default, 200), or the
    exception that left the handler. *)
Inductive page : Type :=
| HTMLResponse (status_code : N) (content : str)
| Unhandled (e : str).

Definition serve_login (fs : filesystem) : page :=
  match fs (u "../frontend/login.html") with
  | Read content => HTMLResponse 200 content
  | FileNotFoundError =>
    HTMLResponse 200 (u "<h1>❌ login.html not found</h1>")
  | OtherError e => Unhandled e
  end.

Definition serve_tool (fs : filesystem) : page :=
  match fs (u "../frontend/index.html") with
  | Read content => HTMLResponse 200 content
  | FileNotFoundError =>
    HTMLResponse 200 (u "<h1>❌ index.html not found</h1>")
  | OtherError e => Unhandled e
  end.

(** ** Health check, lines 310-313 *)

(** [os.getenv]: the value of a variable, [None] when it is not set. *)
Definition environ : Type := str -> option str.

(** [bool(x)] for [x] a string or [None]. *)
Definition bool_of (x : option str) : bool :=
  match x with
  | Some s => truthy s
  | None => false
  end.

Record health : Type := {
  health_status : str;
  api_key_set : bool
}.

Definition health_check (getenv : environ) : health :=
  {| health_status := u "healthy";
     api_key_set := bool_of (getenv (u "GROQ_API_KEY")) |}.

(* ================================================================== *)
(** * The claims of the specification, read literally

    Definitions of this part follow the words of the specification; they are
    compared below with the definitions taken from [main.py]. *)

Module Spec.

(** A block was located by a pattern. *)
Definition recognized (r : regex) (text : str) : bool :=
  match re_search r text with Some _ => true | None => false end.

(** "every line beginning with a bullet marker and the literal text As a;
    trim whitespace; drop empty results": the lines of the block that start
    with [- As a], without the marker. *)
Definition bullet_story_lines (block : str) : list str :=
  strip_nonempty
    (map (skipn 2) (filter (startswith (u "- As a")) (lines block))).

(** Every line of the block that has [- As a] somewhere begins with it. *)
Definition bullets_lead (block : str) : bool :=
  forallb (fun line => startswith (u "- As a") line
                       || negb (contains (u "- As a") line))
          (lines block).

(** "every typed response field has a non-empty value". *)
Definition prd_fields_nonempty (r : PRDResponse) : bool :=
  truthy (prd_document r) && truthy (user_stories r)
  && truthy (success_metrics r) && truthy (timeline r) && truthy (risks r).

Definition api_fields_nonempty (r : APIDocResponse) : bool :=
  truthy (openapi_spec r) && truthy (markdown_docs r)
  && truthy (code_examples r).

End Spec.

(** ** What the item pattern of [main.py] does, line by line *)

(** The first occurrence of [marker ++ head] in a line, from [head] to the
    end of the line. *)
Fixpoint first_item (marker head line : str) : option str :=
  match after (marker ++ head) line with
  | Some _ => Some (skipn (length marker) line)
  | None =>
    match line with
    | [] => None
    | _ :: line' => first_item marker head line'
    end
  end.

Definition items_by_line (marker head block : str) : list str :=
  flat_map (fun line => match first_item marker head line with
                        | Some x => [x]
                        | None => []
                        end) (lines block).

(** The user stories of a block: at most one per line, the text that
    follows the first [- ] that is followed by [As a]. *)
Definition stories_by_line (block : str) : list str :=
  strip_nonempty (items_by_line (u "- ") (u "As a") block).

(** The text up to the first newline, and the text after it. *)
Fixpoint line_head (s : str) : str :=
  match s with
  | [] => []
  | c :: s' => if (c =? nl)%N then [] else c :: line_head s'
  end.

Fixpoint after_line (s : str) : str :=
  match s with
  | [] => []
  | c :: s' => if (c =? nl)%N then s' else after_line s'
  end.

Definition no_newline (s : str) : bool :=
  forallb (fun c => negb (c =? nl)%N) s.

(** The bullet items of a block: at most one per line, the text that
    follows the first [- ] of the line. *)
Definition bullets_by_line (block : str) : list str :=
  strip_nonempty (items_by_line (u "- ") [] block).

(** How a field degrades. With no block located the field is its
    default; with a block whose content is empty it is the default too;
    otherwise it is what [keep] leaves of the content. *)
Definition falls_back {A : Type} (located : option result)
           (content : result -> list A) (keep : list A -> list A)
           (default field : list A) : Prop :=
  match located with
  | None => field = default
  | Some m =>
    match content m with
    | [] => field = default
    | _ :: _ => field = keep (content m)
    end
  end.

(** The shape of the story pattern, r'M(H.*?)(?:\n|$)' for literals M, H. *)
Definition item_re (marker head : str) : regex :=
  Cat (lits marker)
      (Cat (Group (Cat (lits head) LazyDot)) (Alt (Lit nl) Dollar)).

(** ** Where a heading pattern finds its block *)

(** The shape of the heading patterns, r'H(.*?)T' for a literal H and a
    tail T that consumes nothing. *)
Definition heading_re (h : str) (tail : regex) : regex :=
  Cat (lits h) (Cat (Group LazyDot) tail).

(** The text after the first occurrence of [h]. *)
Fixpoint after_first (h text : str) : option str :=
  match after h text with
  | Some post => Some post
  | None =>
    match text with
    | [] => None
    | _ :: text' => after_first h text'
    end
  end.

(** The shortest prefix of [s] after which [stop] holds, and the rest. *)
Fixpoint until (stop : str -> bool) (s : str) : option (str * str) :=
  if stop s then Some ([], s)
  else match s with
       | [] => None
       | c :: s' =>
         match until stop s' with
         | Some (b, r) => Some (c :: b, r)
         | None => None
         end
       end.

(** The block of a heading: from the first occurrence of the heading to
    the first place where [stop] holds. *)
Definition block_after (h : str) (stop : str -> bool) (text : str)
  : option result :=
  match after_first h text with
  | Some post =>
    match until stop post with
    | Some (b, r) => Some (Some b, r)
    | None => None
    end
  | None => None
  end.

(** Where the look-ahead of a PRD pattern holds, and the one of an API
    documentation pattern. *)
Definition prd_stop (marker s : str) : bool :=
  startswith marker s || startswith (u "---") s || startswith (u "\Z") s.

Definition api_stop (marker s : str) : bool :=
  startswith marker s || startswith (u "---SEPARATOR---") s || at_dollar s.

(** The text after the first newline. *)
Fixpoint after_newline (s : str) : option str :=
  match s with
  | [] => None
  | c :: s' => if (c =? nl)%N then Some s' else after_newline s'
  end.

(** The block of a heading whose line is skipped to its end: from the
    first newline after the first occurrence of the heading to the first
    place where [stop] holds. *)
Definition block_after_line (h : str) (stop : str -> bool) (text : str)
  : option result :=
  match after_first h text with
  | Some post =>
    match after_newline post with
    | Some body =>
      match until stop body with
      | Some (b, r) => Some (Some b, r)
      | None => None
      end
    | None => None
    end
  | None => None
  end.

(** The shape of the API Documentation pattern, r'H.*?\n(.*?)T'. *)
Definition heading_line_re (h : str) (tail : regex) : regex :=
  Cat (lits h) (Cat LazyDot (Cat (Lit nl) (Cat (Group LazyDot) tail))).

(** The four heading patterns of the PRD pipeline, each with its heading
    and the marker of its look-ahead. *)
Definition prd_sections : list (regex * str * str) :=
  [ (stories_re, u "## 👤 User Stories", u "## ");
    (metrics_re, u "## 📊 Success Metrics", u "## ");
    (timeline_re, u "## ⏱️ Timeline" ++ [nl], u "##");
    (risks_re, u "## ⚠️ Risks", u "##") ].

(** ** Replies laid out as the prompts ask *)

(** The separator line between two sections, and the one that closes the
    last section. *)
Definition prd_sep : str := [nl] ++ u "---" ++ [nl].
Definition prd_end : str := [nl] ++ u "---".

(** The five sections of the PRD prompt in its order, each body on its own
    lines, separated by [---]. *)
Definition prd_layout (doc stories metrics weeks risk_items : str) : str :=
  u "## 📋 PRD Document" ++ [nl] ++ doc ++ prd_sep
  ++ u "## 👤 User Stories" ++ [nl] ++ stories ++ prd_sep
  ++ u "## 📊 Success Metrics" ++ [nl] ++ metrics ++ prd_sep
  ++ (u "## ⏱️ Timeline" ++ [nl]) ++ weeks ++ prd_sep
  ++ u "## ⚠️ Risks" ++ [nl] ++ risk_items ++ prd_end.

(** A section body that cannot be taken for a heading or a separator: it
    has no [#], no backslash and no [---]. *)
Definition plain (s : str) : bool :=
  negb (existsb (fun c => (c =? 35)%N) s)
  && negb (existsb (fun c => (c =? 92)%N) s)
  && negb (contains (u "---") s).

(** The three sections of the API documentation prompt, separated by
    [---SEPARATOR---]; [title] is what follows the first heading on its
    line. *)
Definition api_sep : str := [nl] ++ u "---SEPARATOR---" ++ [nl].

Definition api_layout (title docs spec examples : str) : str :=
  u "## 📚 API Documentation" ++ title ++ [nl] ++ docs ++ api_sep
  ++ (u "## 🔗 OpenAPI Spec" ++ [nl]) ++ spec ++ api_sep
  ++ (u "## 💻 Code Examples" ++ [nl]) ++ examples.

(** A body without [#] and without the separator of the API prompt. *)
Definition plain_api (s : str) : bool :=
  negb (existsb (fun c => (c =? 35)%N) s)
  && negb (contains (u "---SEPARATOR---") s).

(** [s] less the newline that ends it, if one does. *)
Definition without_final_newline (s : str) : str :=
  match until at_dollar s with
  | Some (b, _) => b
  | None => s
  end.

(** [h] and [s] differ at a position that both have. *)
Fixpoint clash (h s : str) : bool :=
  match h, s with
  | c :: h', c' :: s' => if (c =? c')%N then clash h' s' else true
  | _, _ => false
  end.

(** [h] begins at no position of [lit], whatever follows [lit]. *)
Fixpoint never_in (h lit : str) : bool :=
  match lit with
  | [] => true
  | _ :: lit' => clash h lit && never_in h lit'
  end.

(** A string that [strip] leaves as it is. *)
Definition trimmed (s : str) : bool :=
  if list_eq_dec N.eq_dec (strip s) s then true else false.

(* ================================================================== *)
(** * Sample requests and replies *)

Module Sample.

Definition prd_request : PRDRequest :=
  {| feature_idea := u "Dark mode";
     target_audience := u "   ";
     problem_statement := [] |}.

Definition api_request : APIDocRequest :=
  {| code := u "def ping(): return 1";
     language := u "Python";
     project_name := u " " |}.

(** A client that answers every prompt with the same text, and one whose
    call fails. *)
Definition replies (text : str) : client_t := fun _ _ => Content text.
Definition fails (e : str) : client_t := fun _ _ => Raised e.

(** A reply in the order the prompt asks for, Risks last, without a
    separator after the last section. *)
Definition reply_risks_last : str :=
  u "## 📋 PRD Document
Overview: a dark colour scheme.

## 👤 User Stories
- As a user, I want dark mode so that my eyes rest

## 📊 Success Metrics
- Adoption: 40% in 3 months

## ⏱️ Timeline
3 weeks

## ⚠️ Risks
- Risk 1: Scope creep
- Risk 2: Delay".

(** A reply that ends with its Timeline section. *)
Definition reply_timeline_last : str :=
  u "## ⚠️ Risks
- Risk 1: Scope creep
---
## ⏱️ Timeline
3 weeks".

(** A Timeline heading with nothing under it. *)
Definition reply_blank_timeline : str :=
  u "## ⏱️ Timeline

## ⚠️ Risks
- Risk 1: Scope creep
---".

(** The same body under the heading of the prompt and under the heading
    without its emoji. *)
Definition stories_body : str :=
  u "
- As a tester, I want coverage so that bugs are caught
## Success Metrics
- Adoption
".

Definition stories_decorated : str := u "## 👤 User Stories" ++ stories_body.
Definition stories_undecorated : str := u "## User Stories" ++ stories_body.

Definition timeline_body : str :=
  u "3 weeks
---".

Definition timeline_decorated : str :=
  u "## ⏱️ Timeline" ++ [nl] ++ timeline_body.
Definition timeline_undecorated : str :=
  u "## Timeline" ++ [nl] ++ timeline_body.

(** The example of the specification. *)
Definition reply_spec_example : str :=
  u "## 👤 User Stories
- As a tester, I want coverage so that bugs are caught
- As a user, I want speed so that I save time
## 📊 Success Metrics
...".

(** Its User Stories block and what follows the block. *)
Definition spec_example_block : str :=
  u "
- As a tester, I want coverage so that bugs are caught
- As a user, I want speed so that I save time
".

Definition spec_example_rest : str :=
  u "## 📊 Success Metrics
...".

(** A story whose [- As a] is not at the start of its line. *)
Definition reply_inline_story : str :=
  u "## 👤 User Stories
- As a admin, I want audit logs so that I can review changes
1. Login - As a user, I want to sign in so that I see my data
## 📊 Success Metrics
- Adoption
".

Definition reply_six_stories : str :=
  u "## 👤 User Stories
- As a user, I want story 1
- As a user, I want story 2
- As a user, I want story 3
- As a user, I want story 4
- As a user, I want story 5
- As a user, I want story 6
---".

(** A located block without any story. *)
Definition reply_no_story : str :=
  u "## 👤 User Stories
* As a user, I want speed so that I save time
---".

Definition block_400 : str := repeat 120%N 400.

Definition api_reply_400 : str :=
  u "## 💻 Code Examples" ++ [nl] ++ block_400.

Definition block_1200 : str := repeat 120%N 500 ++ repeat 121%N 700.

Definition api_reply_1200 : str :=
  u "## 💻 Code Examples" ++ [nl] ++ block_1200.

(** Both headings present, nothing but blanks under them. *)
Definition api_reply_blank : str :=
  u "## 📚 API Documentation (Markdown)" ++ [nl]
  ++ u "  " ++ [nl]
  ++ u "## 🔗 OpenAPI Spec" ++ [nl]
  ++ u "   " ++ [nl]
  ++ u "## 💻 Code Examples" ++ [nl]
  ++ u "print(1)".

(** An OpenAPI section that is the last content of the reply. *)
Definition api_reply_openapi_last : str :=
  u "## 🔗 OpenAPI Spec" ++ [nl] ++ u "{}".

(** A Success Metrics block with a dash inside a line and a line without
    any. *)
Definition metrics_block : str :=
  u "
- Adoption: 40% in 3 months
Q3 - Q4: retention up
* no dash here
".

Definition metrics_rest : str := u "---".

Definition reply_metrics : str :=
  u "## 📊 Success Metrics" ++ metrics_block ++ metrics_rest.

(** The same language and project, another code. *)
Definition api_request_other_code : APIDocRequest :=
  {| code := u "SELECT 1;";
     language := u "Python";
     project_name := u " " |}.

(** A reply with the three sections of the API documentation prompt. *)
Definition api_reply_full : str :=
  u "## 📚 API Documentation (Markdown)
# Ping API
## 🔗 OpenAPI Spec
{}
---SEPARATOR---
## 💻 Code Examples
print(ping())
---SEPARATOR---
Thanks!
".

Definition api_examples_block : str :=
  u "print(ping())
---SEPARATOR---
Thanks!".

(** The bodies of a reply in the layout of the PRD prompt, and of one in
    the layout of the API documentation prompt. *)
Definition part_doc : str := u "Overview: a dark colour scheme.".
Definition part_stories : str :=
  u "- As a user, I want dark mode so that my eyes rest
- As a admin, I want a default so that teams agree".
Definition part_metrics : str := u "- Adoption: 40% in 3 months".
Definition part_weeks : str := u "3 weeks".
Definition part_risks : str :=
  u "- Risk 1: Scope creep
- Risk 2: Delay".

Definition part_title : str := u " (Markdown)".
Definition part_docs : str :=
  u "Ping API
GET /ping returns 1.".
Definition part_spec : str := u "{}".
Definition part_examples : str :=
  u "print(ping())
".

(** A Code Examples block that begins with blanks, for a language
    written with a blank. *)
Definition padded_block : str := u "  print(1)".

Definition api_reply_padded : str :=
  u "## 💻 Code Examples" ++ [nl] ++ padded_block.

Definition api_request_padded : APIDocRequest :=
  {| code := u "x = 1"; language := u "Python "; project_name := [] |}.

(** A client whose reply has no text. *)
Definition no_content : client_t := fun _ _ => NoContent.

(** Both pages present. *)
Definition both_pages : filesystem :=
  fun path =>
    if list_eq_dec N.eq_dec path (u "../frontend/login.html")
    then Read (u "<h1>Login</h1>")
    else if list_eq_dec N.eq_dec path (u "../frontend/index.html")
         then Read (u "<h1>Tool</h1>")
         else FileNotFoundError.

(** No file at all, and only the login page, which is empty. *)
Definition no_files : filesystem := fun _ => FileNotFoundError.

Definition empty_login_only : filesystem :=
  fun path =>
    if list_eq_dec N.eq_dec path (u "../frontend/login.html")
    then Read [] else FileNotFoundError.

(** The key set to the empty string, and to a value. *)
Definition key_empty : environ :=
  fun name =>
    if list_eq_dec N.eq_dec name (u "GROQ_API_KEY") then Some [] else None.

Definition key_set : environ :=
  fun name =>
    if list_eq_dec N.eq_dec name (u "GROQ_API_KEY")
    then Some (u "gsk_test") else None.

End Sample.

(* ================================================================== *)
(** * Facts about strings *)

Section StrFacts.

Lemma after_app (l s : str) : after l (l ++ s) = Some s.
Proof.
  induction l as [|c l IH]; simpl; [reflexivity|].
  now rewrite N.eqb_refl.
Qed.

Lemma after_Some (l s r : str) : after l s = Some r -> s = l ++ r.
Proof.
  revert s; induction l as [|c l IH]; intros [|c' s]; simpl; try congruence.
  destruct (N.eqb_spec c c') as [->|]; [|discriminate].
  intros H; f_equal; auto.
Qed.

Lemma after_cat (a b s : str) :
  after (a ++ b) s =
  match after a s with Some s1 => after b s1 | None => None end.
Proof.
  revert s; induction a as [|c a IH]; intros s; simpl; [reflexivity|].
  destruct s as [|c' s]; [reflexivity|].
  destruct (c =? c')%N; auto.
Qed.

Lemma truthy_true {A} (l : list A) : truthy l = true <-> l <> [].
Proof. destruct l; simpl; split; congruence. Qed.

Lemma truthy_false {A} (l : list A) : truthy l = false <-> l = [].
Proof. destruct l; simpl; split; congruence. Qed.

Lemma contains_cons (l : str) (c : char) (s : str) :
  contains l (c :: s) = false -> contains l s = false.
Proof. simpl; intros H; apply orb_false_iff in H; tauto. Qed.

Lemma contains_startswith (l s : str) :
  contains l s = false -> after l s = None.
Proof.
  destruct s; simpl; unfold startswith; destruct (after l _); simpl;
    congruence.
Qed.

(** A literal that contains a character cannot occur in a text without it. *)
Lemma after_In (l s r : str) (c : char) :
  after l s = Some r -> In c l -> In c s.
Proof.
  intros H Hin; apply after_Some in H; subst; apply in_or_app; auto.
Qed.

Lemma contains_In (l s : str) (c : char) :
  In c l -> ~ In c s -> contains l s = false.
Proof.
  intros Hl; induction s as [|c' s IH]; intros Hs; simpl; unfold startswith.
  - destruct (after l []) eqn:E; [|reflexivity].
    exfalso; eapply Hs, after_In; eauto.
  - destruct (after l (c' :: s)) eqn:E.
    + exfalso; eapply Hs, after_In; eauto.
    + simpl; apply IH; intros F; apply Hs; now right.
Qed.

End StrFacts.

(* ================================================================== *)
(** * Facts about the matcher *)

Section ReFacts.

Variable d : bool.

Lemma run_lits (l s : str) (g : option str) k :
  run d (lits l) s g k =
  match after l s with Some r => k r g | None => None end.
Proof.
  revert s; induction l as [|c l IH]; intros [|c' s]; simpl; auto.
  destruct (c =? c')%N; auto.
Qed.

Lemma lazy_dot_Some (s : str) k x :
  lazy_dot d s k = Some x -> exists s', k s' = Some x.
Proof.
  induction s as [|c s IH]; simpl.
  - destruct (k []) eqn:E; [|discriminate].
    intros [= <-]; eauto.
  - destruct (k (c :: s)) eqn:E.
    + intros [= <-]; eauto.
    + destruct (dot_ok d c); [auto|discriminate].
Qed.

Lemma search_Some (r : regex) (s : str) x :
  search d r s = Some x -> exists s', match_here d r s' = Some x.
Proof.
  induction s as [|c s IH]; simpl.
  - destruct (match_here d r []) eqn:E; [|discriminate].
    intros [= <-]; eauto.
  - destruct (match_here d r (c :: s)) eqn:E; [|auto].
    intros [= <-]; eauto.
Qed.

(** A pattern that begins with a literal is found only in a text that
    contains the literal. *)
Lemma search_literal_absent (h : str) (r : regex) (s : str) :
  contains h s = false -> search d (Cat (lits h) r) s = None.
Proof.
  induction s as [|c s IH]; intros H.
  - simpl. unfold match_here. simpl. rewrite run_lits.
    now rewrite (contains_startswith _ _ H).
  - simpl. unfold match_here. simpl. rewrite run_lits.
    rewrite (contains_startswith _ _ H).
    apply IH. eapply contains_cons; eauto.
Qed.

(** Where a heading pattern [H(.*?)(?=A)] matches, the look-ahead [A]
    holds on the text that follows the match. *)
Lemma heading_block_ahead (h : str) (a : regex) (s : str) x :
  search d (Cat (lits h) (Cat (Group LazyDot) (Ahead a))) s = Some x ->
  exists g0 y, run d a (snd x) g0 (fun s' g' => Some (g', s')) = Some y.
Proof.
  intros H. apply search_Some in H as [s0 H].
  unfold match_here in H. simpl in H. rewrite run_lits in H.
  destruct (after h s0) as [s1|]; [|discriminate].
  apply lazy_dot_Some in H as [s2 H].
  destruct (run d a s2 _ _) eqn:E; [|discriminate].
  injection H as <-. simpl. eauto.
Qed.

(** A look-ahead made of three literals needs one of them. *)
Lemma alt3_literal (a b c s : str) g y :
  run d (Alt (lits a) (Alt (lits b) (lits c))) s g
      (fun s' g' => Some (g', s')) = Some y ->
  startswith a s || startswith b s || startswith c s = true.
Proof.
  simpl. rewrite !run_lits. unfold startswith.
  destruct (after a s); [reflexivity|].
  destruct (after b s); [reflexivity|].
  destruct (after c s); [reflexivity|discriminate].
Qed.

End ReFacts.

(** In the PRD pipeline a located block is always followed by a heading
    marker, [---] or the two characters [\Z]: no block ends at the end of
    the text. *)
Lemma prd_block_never_last (h marker : str) (text : str) m :
  re_search (Cat (lits h) (Cat (Group LazyDot) (prd_ahead marker))) text
  = Some m ->
  startswith marker (snd m) || startswith (u "---") (snd m)
  || startswith (u "\Z") (snd m) = true.
Proof.
  intros H. apply heading_block_ahead in H as (g0 & y & H).
  eapply alt3_literal; eauto.
Qed.

(* ================================================================== *)
(** * Lines *)

Section LineFacts.

Lemma no_newline_app (a b : str) :
  no_newline (a ++ b) = true <-> no_newline a = true /\ no_newline b = true.
Proof. unfold no_newline. rewrite forallb_app. apply andb_true_iff. Qed.

Lemma line_head_app (l s : str) :
  no_newline l = true -> line_head (l ++ nl :: s) = l.
Proof.
  induction l as [|c l IH]; simpl; [reflexivity|].
  intros H; apply andb_true_iff in H as [Hc Hl].
  apply negb_true_iff in Hc. rewrite Hc. f_equal; auto.
Qed.

Lemma after_line_app (l s : str) :
  no_newline l = true -> after_line (l ++ nl :: s) = s.
Proof.
  induction l as [|c l IH]; simpl; [reflexivity|].
  intros H; apply andb_true_iff in H as [Hc Hl].
  apply negb_true_iff in Hc. rewrite Hc. auto.
Qed.

Lemma line_head_whole (l : str) : no_newline l = true -> line_head l = l.
Proof.
  induction l as [|c l IH]; simpl; [reflexivity|].
  intros H; apply andb_true_iff in H as [Hc Hl].
  apply negb_true_iff in Hc. rewrite Hc. f_equal; auto.
Qed.

Lemma after_line_whole (l : str) : no_newline l = true -> after_line l = [].
Proof.
  induction l as [|c l IH]; simpl; [reflexivity|].
  intros H; apply andb_true_iff in H as [Hc Hl].
  apply negb_true_iff in Hc. rewrite Hc. auto.
Qed.

Lemma lines_app (l s : str) :
  no_newline l = true -> lines (l ++ nl :: s) = l :: lines s.
Proof.
  induction l as [|c l IH]; simpl; [reflexivity|].
  intros H; apply andb_true_iff in H as [Hc Hl].
  apply negb_true_iff in Hc. rewrite Hc. now rewrite IH.
Qed.

Lemma lines_whole (l : str) : no_newline l = true -> lines l = [l].
Proof.
  induction l as [|c l IH]; simpl; [reflexivity|].
  intros H; apply andb_true_iff in H as [Hc Hl].
  apply negb_true_iff in Hc. rewrite Hc. now rewrite IH.
Qed.

(** A text is one line, or a first line, a newline and the rest. *)
Lemma first_line (s : str) :
  no_newline s = true \/
  exists l s', s = l ++ nl :: s' /\ no_newline l = true.
Proof.
  induction s as [|c s IH]; [now left|].
  destruct (N.eqb_spec c nl) as [->|Hc].
  - right. exists [], s. split; reflexivity.
  - destruct IH as [IH|(l & s' & -> & Hl)].
    + left. simpl. apply N.eqb_neq in Hc. now rewrite Hc.
    + right. exists (c :: l), s'. split; [reflexivity|].
      simpl. apply N.eqb_neq in Hc. now rewrite Hc.
Qed.

(** A literal without a newline is looked for inside the line. *)
Lemma after_in_line (p l s : str) :
  no_newline p = true ->
  after p (l ++ nl :: s) =
  match after p l with Some r => Some (r ++ nl :: s) | None => None end.
Proof.
  revert l; induction p as [|c p IH]; intros l Hp; [reflexivity|].
  simpl in Hp. apply andb_true_iff in Hp as [Hc Hp].
  apply negb_true_iff in Hc.
  destruct l as [|c' l]; simpl.
  - now rewrite Hc.
  - destruct (c =? c')%N; auto.
Qed.

Lemma after_no_newline (p l r : str) :
  after p l = Some r -> no_newline l = true -> no_newline r = true.
Proof.
  intros H Hl. apply after_Some in H. subst.
  now apply no_newline_app in Hl.
Qed.

Lemma after_skipn (a b l r : str) :
  after (a ++ b) l = Some r -> skipn (length a) l = b ++ r.
Proof.
  intros H. apply after_Some in H. subst.
  rewrite <- app_assoc. now rewrite skipn_app, skipn_all, Nat.sub_diag.
Qed.

End LineFacts.

(* ================================================================== *)
(** * The item pattern, line by line

    [findall] with r'M(H.*?)(?:\n|$)' gives at most one item per line: the
    text from the first [M] that is followed by [H] to the end of the line.
    The marker need not be at the start of the line. *)

Lemma firstn_consumed {A} (p s : list A) :
  firstn (length (p ++ s) - length s) (p ++ s) = p.
Proof.
  rewrite length_app, Nat.add_sub.
  now rewrite firstn_app, Nat.sub_diag, firstn_all, app_nil_r.
Qed.

Section ItemFacts.


Variables marker head : str.
Hypothesis literal_one_line : no_newline (marker ++ head) = true.
Hypothesis marker_nonempty : marker <> [].

Lemma item_tail (s p : str) :
  lazy_dot false s
    (fun s' =>
       run false (Alt (Lit nl) Dollar) s'
           (Some (firstn (length (p ++ s) - length s') (p ++ s)))
           (fun s'' g => Some (g, s'')))
  = Some (Some (p ++ line_head s), after_line s).
Proof.
  revert p; induction s as [|c s IH]; intros p.
  - simpl. now rewrite Nat.sub_0_r, firstn_all.
  - cbn [lazy_dot run]. destruct (N.eqb_spec nl c) as [<-|Hc].
    + cbn [line_head after_line]. rewrite N.eqb_refl, app_nil_r.
      now rewrite firstn_consumed.
    + assert (Hc' : (c =? nl)%N = false) by (apply N.eqb_neq; congruence).
      replace (at_dollar (c :: s)) with false
        by (destruct s; simpl; congruence).
      unfold dot_ok. rewrite Hc'. cbn [orb negb line_head after_line].
      rewrite Hc'.
      specialize (IH (p ++ [c])). rewrite <- !app_assoc in IH.
      exact IH.
Qed.

Lemma match_here_item (s : str) :
  match_here false (item_re marker head) s =
  match after (marker ++ head) s with
  | Some r => Some (Some (head ++ line_head r), after_line r)
  | None => None
  end.
Proof.
  unfold match_here, item_re. cbn [run]. rewrite run_lits, after_cat.
  destruct (after marker s) as [s1|]; [|reflexivity].
  rewrite run_lits.
  destruct (after head s1) as [s2|] eqn:E; [|reflexivity].
  apply after_Some in E. subst s1. apply item_tail.
Qed.

Lemma match_item_in_line (l s : str) :
  no_newline l = true ->
  match_here false (item_re marker head) (l ++ nl :: s) =
  match after (marker ++ head) l with
  | Some _ => Some (Some (skipn (length marker) l), s)
  | None => None
  end.
Proof.
  intros Hl. rewrite match_here_item.
  rewrite (after_in_line _ l s literal_one_line).
  destruct (after (marker ++ head) l) as [r|] eqn:E; [|reflexivity].
  rewrite (after_skipn _ _ _ _ E).
  rewrite line_head_app, after_line_app; eauto using after_no_newline.
Qed.

Lemma match_item_last (l : str) :
  no_newline l = true ->
  match_here false (item_re marker head) l =
  match after (marker ++ head) l with
  | Some _ => Some (Some (skipn (length marker) l), [])
  | None => None
  end.
Proof.
  intros Hl. rewrite match_here_item.
  destruct (after (marker ++ head) l) as [r|] eqn:E; [|reflexivity].
  rewrite (after_skipn _ _ _ _ E).
  rewrite line_head_whole, after_line_whole; eauto using after_no_newline.
Qed.

Lemma search_item_line (l s : str) :
  no_newline l = true ->
  search false (item_re marker head) (l ++ nl :: s) =
  match first_item marker head l with
  | Some x => Some (Some x, s)
  | None => search false (item_re marker head) s
  end.
Proof.
  induction l as [|c l IH]; intros Hl;
    pose proof (match_item_in_line _ s Hl) as M;
    cbn [app] in M |- *; cbn [search first_item]; rewrite M;
    destruct (after (marker ++ head) _); try reflexivity.
  apply IH. simpl in Hl. apply andb_true_iff in Hl. tauto.
Qed.

Lemma search_item_last (l : str) :
  no_newline l = true ->
  search false (item_re marker head) l =
  match first_item marker head l with
  | Some x => Some (Some x, [])
  | None => None
  end.
Proof.
  induction l as [|c l IH]; intros Hl;
    pose proof (match_item_last _ Hl) as M;
    cbn [search first_item]; rewrite M;
    destruct (after (marker ++ head) _); try reflexivity.
  apply IH. simpl in Hl. apply andb_true_iff in Hl. tauto.
Qed.

Lemma search_item_empty : search false (item_re marker head) [] = None.
Proof.
  cbn [search]. rewrite match_here_item, after_cat.
  destruct marker; [contradiction|reflexivity].
Qed.

Lemma findall_item_fuel (m : nat) :
  forall (s : str) (n : nat),
    length s <= m -> length s < n ->
    findall_fuel false n (item_re marker head) s
    = items_by_line marker head s.
Proof.
  induction m as [|m IH]; intros s n Hm Hn.
  - destruct s; [|simpl in Hm; lia].
    destruct n; [lia|]. cbn [findall_fuel]. rewrite search_item_empty.
    unfold items_by_line. simpl. rewrite after_cat.
    destruct marker; [contradiction|reflexivity].
  - destruct n as [|n]; [lia|].
    destruct (first_line s) as [Hs|(l & s' & -> & Hl)].
    + cbn [findall_fuel]. rewrite (search_item_last _ Hs).
      unfold items_by_line. rewrite (lines_whole _ Hs). cbn [flat_map].
      destruct (first_item marker head s); [|reflexivity].
      destruct n; [reflexivity|]. cbn [findall_fuel].
      now rewrite search_item_empty.
    + rewrite length_app in Hm, Hn. cbn [length] in Hm, Hn.
      unfold items_by_line. rewrite (lines_app _ _ Hl). cbn [flat_map].
      cbn [findall_fuel]. rewrite (search_item_line _ _ Hl).
      destruct (first_item marker head l).
      * cbn [app]. f_equal. apply IH; lia.
      * cbn [app]. specialize (IH s' (S n)). cbn [findall_fuel] in IH.
        apply IH; lia.
Qed.

Lemma findall_item (s : str) :
  findall false (item_re marker head) s = items_by_line marker head s.
Proof. unfold findall. apply findall_item_fuel with (m := length s); lia. Qed.

Lemma findall_fuel_enough (s : str) (n : nat) :
  length s < n ->
  findall_fuel false n (item_re marker head) s
  = findall false (item_re marker head) s.
Proof.
  intros H. rewrite findall_item.
  apply findall_item_fuel with (m := length s); lia.
Qed.

End ItemFacts.

(** The bullet pattern r'- (.*?)(?:\n|$)' is the item pattern with an
    empty head. *)
Lemma match_here_bullet (d : bool) (s : str) :
  match_here d bullet_item_re s = match_here d (item_re (u "- ") []) s.
Proof. reflexivity. Qed.

Lemma search_same (d : bool) (r1 r2 : regex) :
  (forall s, match_here d r1 s = match_here d r2 s) ->
  forall s, search d r1 s = search d r2 s.
Proof.
  intros H s; induction s as [|c s IH]; cbn [search]; rewrite H;
    destruct (match_here d r2 _); auto.
Qed.

Lemma findall_fuel_same (d : bool) (r1 r2 : regex) :
  (forall s, match_here d r1 s = match_here d r2 s) ->
  forall n s, findall_fuel d n r1 s = findall_fuel d n r2 s.
Proof.
  intros H n; induction n as [|n IH]; intros s; cbn [findall_fuel];
    [reflexivity|].
  rewrite (search_same d r1 r2 H).
  destruct (search d r2 s) as [[g rest]|]; [|reflexivity].
  now rewrite IH.
Qed.

(** [findall] on the two item patterns of [main.py]. *)
Lemma findall_stories (block : str) :
  re_findall story_item_re block = items_by_line (u "- ") (u "As a") block.
Proof.
  apply (findall_item (u "- ") (u "As a")); [reflexivity|discriminate].
Qed.

Lemma findall_bullets (block : str) :
  re_findall bullet_item_re block = items_by_line (u "- ") [] block.
Proof.
  unfold re_findall, findall.
  rewrite (findall_fuel_same false _ _ (match_here_bullet false)).
  apply (findall_item (u "- ") []); [reflexivity|discriminate].
Qed.

(** More fuel than the length of the text changes nothing. *)
Lemma findall_fuel_stories (block : str) (n : nat) :
  length block < n ->
  findall_fuel false n story_item_re block = re_findall story_item_re block.
Proof.
  apply (findall_fuel_enough (u "- ") (u "As a")); [reflexivity|discriminate].
Qed.

Lemma findall_fuel_bullets (block : str) (n : nat) :
  length block < n ->
  findall_fuel false n bullet_item_re block = re_findall bullet_item_re block.
Proof.
  intros H. unfold re_findall, findall.
  rewrite !(findall_fuel_same false _ _ (match_here_bullet false)).
  apply (findall_fuel_enough (u "- ") []); [reflexivity|discriminate|exact H].
Qed.

(* ================================================================== *)
(** * Stripping and the assembler *)

Section AssemblerFacts.

Lemma lstrip_empty (s : str) : lstrip s = [] <-> forallb isspace s = true.
Proof.
  induction s as [|c s IH]; simpl; [tauto|].
  destruct (isspace c); simpl; [exact IH|].
  split; discriminate.
Qed.

Lemma lstrip_head (s : str) (c : char) (t : str) :
  lstrip s = c :: t -> isspace c = false.
Proof.
  induction s as [|c' s IH]; simpl; [discriminate|].
  destruct (isspace c') eqn:E; [exact IH|].
  now intros [= <- _].
Qed.

Lemma forallb_rev {A} (f : A -> bool) (l : list A) :
  forallb f (rev l) = forallb f l.
Proof.
  induction l as [|a l IH]; simpl; [reflexivity|].
  rewrite forallb_app, IH. simpl. rewrite andb_true_r. apply andb_comm.
Qed.

(** [s.strip()] is empty exactly when [s] is empty or all whitespace. *)
Lemma strip_empty (s : str) : strip s = [] <-> forallb isspace s = true.
Proof.
  unfold strip, rstrip. split.
  - intros H. apply (f_equal (@rev char)) in H. rewrite rev_involutive in H.
    simpl in H. apply lstrip_empty in H. rewrite forallb_rev in H.
    destruct (lstrip s) as [|c t] eqn:E; [now apply lstrip_empty|].
    apply lstrip_head in E. simpl in H. rewrite E in H. discriminate.
  - intros H. apply lstrip_empty in H. now rewrite H.
Qed.

Lemma strip_nonempty_Forall (items : list str) :
  Forall (fun x => x <> []) (strip_nonempty items).
Proof.
  unfold strip_nonempty. induction items as [|a l IH]; simpl; [constructor|].
  destruct (truthy (strip a)) eqn:E; [|exact IH].
  simpl. constructor; [now apply truthy_true|exact IH].
Qed.

Lemma first5_or_nonempty (xs default : list str) :
  default <> [] -> first5_or xs default <> [].
Proof.
  intros H. unfold first5_or, slice_to. destruct xs; simpl; [exact H|].
  discriminate.
Qed.

Lemma Forall_firstn {A} (P : A -> Prop) (n : nat) (l : list A) :
  Forall P l -> Forall P (firstn n l).
Proof.
  intros H; revert n; induction H as [|a l Ha Hl IH]; intros [|n]; simpl;
    constructor; auto.
Qed.

Lemma first5_or_Forall (P : str -> Prop) (xs default : list str) :
  Forall P xs -> Forall P default -> Forall P (first5_or xs default).
Proof.
  intros Hx Hd. unfold first5_or, slice_to. destruct (truthy xs); [|exact Hd].
  now apply Forall_firstn.
Qed.

Lemma first5_or_length (xs default : list str) :
  length default <= 5 -> length (first5_or xs default) <= 5.
Proof.
  intros H. unfold first5_or, slice_to. destruct (truthy xs); [|exact H].
  apply firstn_le_length.
Qed.

Lemma first5_or_many (xs default : list str) :
  5 < length xs -> first5_or xs default = firstn 5 xs.
Proof.
  intros H. unfold first5_or, slice_to. destruct xs; [simpl in H; lia|].
  reflexivity.
Qed.

End AssemblerFacts.

(* ================================================================== *)
(** * Headings that do not occur *)

Section AbsentHeadings.

Variable text : str.

Lemma stories_absent :
  contains (u "## 👤 User Stories") text = false ->
  re_search stories_re text = None.
Proof. apply search_literal_absent. Qed.

Lemma metrics_absent :
  contains (u "## 📊 Success Metrics") text = false ->
  re_search metrics_re text = None.
Proof. apply search_literal_absent. Qed.

Lemma timeline_absent :
  contains (u "## ⏱️ Timeline" ++ [nl]) text = false ->
  re_search timeline_re text = None.
Proof. apply search_literal_absent. Qed.

Lemma risks_absent :
  contains (u "## ⚠️ Risks") text = false ->
  re_search risks_re text = None.
Proof. apply search_literal_absent. Qed.

Lemma markdown_absent :
  contains (u "## 📚 API Documentation") text = false ->
  re_search markdown_re text = None.
Proof. apply search_literal_absent. Qed.

Lemma openapi_absent :
  contains (u "## 🔗 OpenAPI Spec" ++ [nl]) text = false ->
  re_search openapi_re text = None.
Proof. apply search_literal_absent. Qed.

Lemma examples_absent :
  contains (u "## 💻 Code Examples" ++ [nl]) text = false ->
  re_search examples_re text = None.
Proof. apply search_literal_absent. Qed.

(** A reply without the character [#] has none of the headings. *)
Lemma no_hash_no_heading (h : str) :
  In 35%N h -> ~ In 35%N text -> contains h text = false.
Proof. intros; now apply contains_In with (c := 35%N). Qed.

End AbsentHeadings.

(** The lists of the PRD response hold no empty string. *)
Lemma parse_user_stories_Forall (text : str) :
  Forall (fun x => x <> []) (parse_user_stories text).
Proof.
  unfold parse_user_stories. destruct (re_search stories_re text);
    [apply strip_nonempty_Forall|constructor].
Qed.

Lemma parse_success_metrics_Forall (text : str) :
  Forall (fun x => x <> []) (parse_success_metrics text).
Proof.
  unfold parse_success_metrics. destruct (re_search metrics_re text);
    [apply strip_nonempty_Forall|constructor].
Qed.

Lemma parse_risks_Forall (text : str) :
  Forall (fun x => x <> []) (parse_risks text).
Proof.
  unfold parse_risks. destruct (re_search risks_re text);
    [apply strip_nonempty_Forall|constructor].
Qed.

Ltac nonempty_literals :=
  repeat constructor; vm_compute; discriminate.

(** ** Stories and bullet lines *)

Lemma first_item_lead (marker head line : str) :
  startswith (marker ++ head) line = true ->
  first_item marker head line = Some (skipn (length marker) line).
Proof.
  unfold startswith. destruct line; simpl;
    destruct (after (marker ++ head) _); congruence.
Qed.

Lemma first_item_absent (marker head line : str) :
  contains (marker ++ head) line = false ->
  first_item marker head line = None.
Proof.
  induction line as [|c line IH]; intros H; cbn [first_item];
    rewrite (contains_startswith _ _ H); [reflexivity|].
  apply IH. eapply contains_cons; eauto.
Qed.

(** Where the marker, when present in a line, leads it, the items are the
    lines that begin with the marker, without it. *)
Lemma items_of_leading (marker head : str) (ls : list str) :
  forallb (fun line => startswith (marker ++ head) line
                       || negb (contains (marker ++ head) line)) ls = true ->
  flat_map (fun line => match first_item marker head line with
                        | Some x => [x]
                        | None => []
                        end) ls
  = map (skipn (length marker)) (filter (startswith (marker ++ head)) ls).
Proof.
  induction ls as [|line ls IH]; cbn [forallb flat_map filter map];
    [reflexivity|].
  intros H. apply andb_true_iff in H as [Hl Hls].
  destruct (startswith (marker ++ head) line) eqn:E.
  - rewrite (first_item_lead _ _ _ E). cbn [map app]. now rewrite IH.
  - cbn in Hl. apply negb_true_iff in Hl.
    rewrite (first_item_absent _ _ _ Hl). cbn [app]. now apply IH.
Qed.

(* ================================================================== *)
(** * Fields and their fallbacks *)

Section FallbackFacts.

Variable text : str.

Lemma first5_or_cases (xs default : list str) :
  match xs with
  | [] => first5_or xs default = default
  | _ :: _ => first5_or xs default = firstn 5 xs
  end.
Proof. destruct xs; reflexivity. Qed.

Lemma user_stories_fall_back :
  falls_back (re_search stories_re text)
             (fun m => stories_by_line (group1 m)) (firstn 5)
             default_user_stories (user_stories (prd_response text)).
Proof.
  unfold falls_back, prd_response, parse_user_stories. cbn [user_stories].
  destruct (re_search stories_re text) as [m|]; [|reflexivity].
  cbn zeta. rewrite findall_stories. unfold stories_by_line.
  apply first5_or_cases.
Qed.

Lemma success_metrics_fall_back :
  falls_back (re_search metrics_re text)
             (fun m => bullets_by_line (group1 m)) (firstn 5)
             default_success_metrics (success_metrics (prd_response text)).
Proof.
  unfold falls_back, prd_response, parse_success_metrics.
  cbn [success_metrics].
  destruct (re_search metrics_re text) as [m|]; [|reflexivity].
  cbn zeta. rewrite findall_bullets. unfold bullets_by_line.
  apply first5_or_cases.
Qed.

Lemma risks_fall_back :
  falls_back (re_search risks_re text)
             (fun m => bullets_by_line (group1 m)) (firstn 5)
             default_risks (risks (prd_response text)).
Proof.
  unfold falls_back, prd_response, parse_risks. cbn [risks].
  destruct (re_search risks_re text) as [m|]; [|reflexivity].
  cbn zeta. rewrite findall_bullets. unfold bullets_by_line.
  apply first5_or_cases.
Qed.

(** [timeline] falls back only when no block is located. *)
Lemma timeline_cases :
  match re_search timeline_re text with
  | None => timeline (prd_response text) = default_timeline
  | Some m => timeline (prd_response text) = strip (group1 m)
  end.
Proof.
  unfold prd_response, parse_timeline. cbn [timeline].
  destruct (re_search timeline_re text); reflexivity.
Qed.

Variable request : APIDocRequest.

Lemma openapi_spec_falls_back :
  falls_back (re_search openapi_re text) (fun m => strip (group1 m))
             (fun x => x) default_openapi_spec
             (openapi_spec (api_response request text)).
Proof.
  unfold falls_back, api_response, parse_openapi_spec. cbn [openapi_spec].
  destruct (re_search openapi_re text) as [m|]; [|reflexivity].
  destruct (strip (group1 m)); reflexivity.
Qed.

Lemma markdown_docs_falls_back :
  falls_back (re_search markdown_re text) (fun m => strip (group1 m))
             (fun x => x) default_markdown_docs
             (markdown_docs (api_response request text)).
Proof.
  unfold falls_back, api_response, parse_markdown_docs. cbn [markdown_docs].
  destruct (re_search markdown_re text) as [m|]; [|reflexivity].
  destruct (strip (group1 m)); reflexivity.
Qed.

(** [code_examples] falls back only when no block is located; a located
    block gives its two slices, empty or not. *)
Lemma code_examples_cases :
  match re_search examples_re text with
  | None =>
    code_examples (api_response request text)
    = default_code_examples request
  | Some m =>
    code_examples (api_response request text)
    = [ {| ex_language := language request;
           ex_code := firstn 500 (group1 m) |};
        {| ex_language := u "JavaScript";
           ex_code := if (500 <? length (group1 m))%nat
                      then firstn 500 (skipn 500 (group1 m))
                      else group1 m |} ]
  end.
Proof.
  unfold api_response, parse_code_examples. cbn [code_examples].
  destruct (re_search examples_re text); reflexivity.
Qed.

End FallbackFacts.

(* ================================================================== *)
(** * Claims *)

(** C1, as stated, fails: a response field can be empty. Under a Timeline
    heading with a blank body [timeline] is the empty string, and for an
    empty reply [prd_document] is the empty string. *)
Lemma fields_can_be_empty :
  timeline (prd_response Sample.reply_blank_timeline) = []
  /\ Spec.prd_fields_nonempty (prd_response Sample.reply_blank_timeline)
     = false
  /\ prd_document (prd_response []) = []
  /\ Spec.prd_fields_nonempty (prd_response []) = false.
Proof. vm_compute. repeat split. Qed.

(** C1, amended: for every reply, [user_stories], [success_metrics] and
    [risks] are non-empty lists of non-empty strings, [openapi_spec] and
    [markdown_docs] are non-empty strings and [code_examples] is a non-empty
    list, so no field of the API documentation response is empty. Each of
    these fields is its documented fallback when its block is not located;
    the three lists and the two strings are their fallback also when the
    located block yields nothing, and otherwise the first five items, or
    the trimmed block; [code_examples] of a located block has its two
    entries. [prd_document] is the reply itself, and [timeline] is
    "2-4 weeks" when no block is located and the trimmed block otherwise,
    so it is non-empty unless a Timeline block was located and is blank. *)
Theorem fields_nonempty_amended
        (request : APIDocRequest) (text api_text : str) :
  let r := prd_response text in
  let a := api_response request api_text in
  (user_stories r <> [] /\ Forall (fun x => x <> []) (user_stories r))
  /\ (success_metrics r <> []
      /\ Forall (fun x => x <> []) (success_metrics r))
  /\ (risks r <> [] /\ Forall (fun x => x <> []) (risks r))
  /\ prd_document r = text
  /\ (timeline r <> []
      \/ exists m, re_search timeline_re text = Some m
                   /\ strip (group1 m) = [])
  /\ openapi_spec a <> []
  /\ markdown_docs a <> []
  /\ code_examples a <> []
  /\ Spec.api_fields_nonempty a = true
  /\ falls_back (re_search stories_re text)
                (fun m => stories_by_line (group1 m)) (firstn 5)
                default_user_stories (user_stories r)
  /\ falls_back (re_search metrics_re text)
                (fun m => bullets_by_line (group1 m)) (firstn 5)
                default_success_metrics (success_metrics r)
  /\ falls_back (re_search risks_re text)
                (fun m => bullets_by_line (group1 m)) (firstn 5)
                default_risks (risks r)
  /\ match re_search timeline_re text with
     | None => timeline r = default_timeline
     | Some m => timeline r = strip (group1 m)
     end
  /\ falls_back (re_search openapi_re api_text)
                (fun m => strip (group1 m)) (fun x => x)
                default_openapi_spec (openapi_spec a)
  /\ falls_back (re_search markdown_re api_text)
                (fun m => strip (group1 m)) (fun x => x)
                default_markdown_docs (markdown_docs a)
  /\ match re_search examples_re api_text with
     | None => code_examples a = default_code_examples request
     | Some _ => length (code_examples a) = 2
     end.
Proof.
  cbn zeta.
  assert (N : (user_stories (prd_response text) <> []
               /\ Forall (fun x => x <> []) (user_stories (prd_response text)))
              /\ (success_metrics (prd_response text) <> []
                  /\ Forall (fun x => x <> [])
                            (success_metrics (prd_response text)))
              /\ (risks (prd_response text) <> []
                  /\ Forall (fun x => x <> []) (risks (prd_response text)))).
  { unfold prd_response. cbn [user_stories success_metrics risks].
    repeat split.
    - apply first5_or_nonempty. discriminate.
    - apply first5_or_Forall;
        [apply parse_user_stories_Forall|nonempty_literals].
    - apply first5_or_nonempty. discriminate.
    - apply first5_or_Forall;
        [apply parse_success_metrics_Forall|nonempty_literals].
    - apply first5_or_nonempty. discriminate.
    - apply first5_or_Forall; [apply parse_risks_Forall|nonempty_literals]. }
  destruct N as (N1 & N2 & N3).
  split; [exact N1|]. split; [exact N2|]. split; [exact N3|].
  split; [reflexivity|].
  split.
  { unfold prd_response, parse_timeline. cbn [timeline].
    destruct (re_search timeline_re text) as [m|] eqn:E.
    - destruct (strip (group1 m)) eqn:S; [right; eauto|left; discriminate].
    - left. vm_compute. discriminate. }
  assert (O : openapi_spec (api_response request api_text) <> []).
  { unfold api_response. cbn [openapi_spec].
    destruct (truthy (parse_openapi_spec api_text)) eqn:E.
    - now apply truthy_true.
    - vm_compute. discriminate. }
  assert (M : markdown_docs (api_response request api_text) <> []).
  { unfold api_response. cbn [markdown_docs].
    destruct (truthy (parse_markdown_docs api_text)) eqn:E.
    - now apply truthy_true.
    - vm_compute. discriminate. }
  assert (C : code_examples (api_response request api_text) <> []).
  { unfold api_response. cbn [code_examples].
    destruct (truthy (parse_code_examples request api_text)) eqn:E.
    - now apply truthy_true.
    - discriminate. }
  split; [exact O|]. split; [exact M|]. split; [exact C|].
  split.
  { unfold Spec.api_fields_nonempty.
    apply truthy_true in O, M, C. now rewrite O, M, C. }
  split; [apply user_stories_fall_back|].
  split; [apply success_metrics_fall_back|].
  split; [apply risks_fall_back|].
  split; [apply timeline_cases|].
  split; [apply openapi_spec_falls_back|].
  split; [apply markdown_docs_falls_back|].
  pose proof (code_examples_cases api_text request) as X.
  destruct (re_search examples_re api_text); now rewrite X.
Qed.

(** C2, violated by the PRD pipeline: a section that is the last content
    of the reply is not extracted. The look-ahead of the four PRD patterns
    ends with an escaped backslash and a Z where the end of the text was
    meant, so the Risks block of a reply that ends with it is not located
    and [risks] is the fallback; with a separator after it the block is
    located. The API documentation pipeline, with [$], extracts a last
    section. *)
Theorem last_section_not_extracted :
  re_search risks_re Sample.reply_risks_last = None
  /\ risks (prd_response Sample.reply_risks_last) = default_risks
  /\ risks (prd_response (Sample.reply_risks_last ++ [nl] ++ u "---"))
     = [u "Risk 1: Scope creep"; u "Risk 2: Delay"]
  /\ parse_openapi_spec Sample.api_reply_openapi_last = u "{}".
Proof. vm_compute. repeat split. Qed.

(** C3, as stated, fails: the same section is located under the heading
    with its emoji and not located under the heading without it. *)
Lemma undecorated_heading_not_recognized :
  Spec.recognized stories_re Sample.stories_decorated = true
  /\ Spec.recognized stories_re Sample.stories_undecorated = false
  /\ user_stories (prd_response Sample.stories_decorated)
     = [u "As a tester, I want coverage so that bugs are caught"]
  /\ user_stories (prd_response Sample.stories_undecorated)
     = default_user_stories
  /\ Spec.recognized timeline_re Sample.timeline_decorated = true
  /\ Spec.recognized timeline_re Sample.timeline_undecorated = false
  /\ timeline (prd_response Sample.timeline_decorated) = u "3 weeks"
  /\ timeline (prd_response Sample.timeline_undecorated) = default_timeline.
Proof. vm_compute. repeat split. Qed.

(** C3, amended: a block is located only where the reply contains the
    heading of the pattern character for character, emoji included; in a
    reply without that exact heading no block is located and the field is
    its fallback. *)
Theorem heading_match_is_exact (text : str) :
  (contains (u "## 👤 User Stories") text = false ->
   re_search stories_re text = None
   /\ user_stories (prd_response text) = default_user_stories)
  /\ (contains (u "## 📊 Success Metrics") text = false ->
      re_search metrics_re text = None
      /\ success_metrics (prd_response text) = default_success_metrics)
  /\ (contains (u "## ⏱️ Timeline" ++ [nl]) text = false ->
      re_search timeline_re text = None
      /\ timeline (prd_response text) = default_timeline)
  /\ (contains (u "## ⚠️ Risks") text = false ->
      re_search risks_re text = None
      /\ risks (prd_response text) = default_risks).
Proof.
  unfold prd_response, parse_user_stories, parse_success_metrics,
    parse_timeline, parse_risks.
  cbn [user_stories success_metrics timeline risks].
  repeat split.
  - now apply stories_absent.
  - now rewrite stories_absent.
  - now apply metrics_absent.
  - now rewrite metrics_absent.
  - now apply timeline_absent.
  - now rewrite timeline_absent.
  - now apply risks_absent.
  - now rewrite risks_absent.
Qed.

Lemma heading_match_is_exact_witness :
  contains (u "## 👤 User Stories") Sample.stories_undecorated = false
  /\ user_stories (prd_response Sample.stories_undecorated)
     = default_user_stories
  /\ contains (u "## ⏱️ Timeline" ++ [nl]) Sample.timeline_undecorated = false
  /\ timeline (prd_response Sample.timeline_undecorated) = default_timeline
  /\ success_metrics (prd_response Sample.stories_undecorated)
     = default_success_metrics
  /\ risks (prd_response Sample.stories_undecorated) = default_risks.
Proof.
  destruct (heading_match_is_exact Sample.stories_undecorated)
    as (S & M & _ & R).
  destruct (heading_match_is_exact Sample.timeline_undecorated)
    as (_ & _ & T & _).
  split; [reflexivity|]. split; [exact (proj2 (S eq_refl))|].
  split; [reflexivity|]. split; [exact (proj2 (T eq_refl))|].
  split; [exact (proj2 (M eq_refl))|exact (proj2 (R eq_refl))].
Defined.

(** C4, as stated, fails in three ways: a story whose [- As a] is inside
    its line is returned although the line does not begin with the bullet;
    of six bullet lines only five are returned; and for a block without any
    such line the canned story is returned, not the empty list. *)
Lemma stories_not_the_bullet_lines :
  (option_map (fun m => Spec.bullet_story_lines (group1 m))
              (re_search stories_re Sample.reply_inline_story)
   = Some [u "As a admin, I want audit logs so that I can review changes"]
   /\ user_stories (prd_response Sample.reply_inline_story)
      = [u "As a admin, I want audit logs so that I can review changes";
         u "As a user, I want to sign in so that I see my data"])
  /\ (option_map (fun m => length (Spec.bullet_story_lines (group1 m)))
                 (re_search stories_re Sample.reply_six_stories) = Some 6
      /\ length (user_stories (prd_response Sample.reply_six_stories)) = 5)
  /\ (option_map (fun m => Spec.bullet_story_lines (group1 m))
                 (re_search stories_re Sample.reply_no_story) = Some []
      /\ user_stories (prd_response Sample.reply_no_story)
         = default_user_stories).
Proof. vm_compute. repeat split. Qed.

(** C4, amended: when the User Stories block is located, [user_stories]
    holds, for each line of the block that contains [- As a], the text of
    the line from the first such [As a] on, trimmed, in the order of the
    block, cut to the first five, and the canned story when there is none;
    where [- As a], when present in a line, begins it, these are the bullet
    lines that the claim describes. The example of the specification
    holds. *)
Theorem user_stories_by_line :
  (forall (text : str) (m : result),
      re_search stories_re text = Some m ->
      user_stories (prd_response text)
      = first5_or (stories_by_line (group1 m)) default_user_stories
      /\ (Spec.bullets_lead (group1 m) = true ->
          stories_by_line (group1 m) = Spec.bullet_story_lines (group1 m)))
  /\ user_stories (prd_response Sample.reply_spec_example)
     = [u "As a tester, I want coverage so that bugs are caught";
        u "As a user, I want speed so that I save time"].
Proof.
  split; [|vm_compute; reflexivity].
  intros text m H. split.
  - unfold prd_response, parse_user_stories. cbn [user_stories].
    rewrite H. cbn zeta. now rewrite findall_stories.
  - intros L. unfold stories_by_line, Spec.bullet_story_lines, items_by_line.
    f_equal. apply (items_of_leading (u "- ") (u "As a")). exact L.
Qed.

Lemma user_stories_by_line_witness :
  re_search stories_re Sample.reply_spec_example
  = Some (Some Sample.spec_example_block, Sample.spec_example_rest)
  /\ Spec.bullets_lead
       (group1 (Some Sample.spec_example_block, Sample.spec_example_rest))
     = true
  /\ user_stories (prd_response Sample.reply_spec_example)
     = first5_or
         (stories_by_line
            (group1 (Some Sample.spec_example_block,
                     Sample.spec_example_rest)))
         default_user_stories
  /\ stories_by_line
       (group1 (Some Sample.spec_example_block, Sample.spec_example_rest))
     = Spec.bullet_story_lines
         (group1 (Some Sample.spec_example_block, Sample.spec_example_rest)).
Proof.
  assert (E : re_search stories_re Sample.reply_spec_example
              = Some (Some Sample.spec_example_block,
                      Sample.spec_example_rest))
    by (vm_compute; reflexivity).
  assert (L : Spec.bullets_lead
                (group1 (Some Sample.spec_example_block,
                         Sample.spec_example_rest)) = true)
    by (vm_compute; reflexivity).
  split; [exact E|]. split; [exact L|]. split.
  - exact (proj1 (proj1 user_stories_by_line _ _ E)).
  - exact (proj2 (proj1 user_stories_by_line _ _ E) L).
Defined.

(** C5: each of [user_stories], [success_metrics] and [risks] has at most
    five entries, and when more than five items were extracted the field is
    the first five of them, in the order of the reply. *)
Theorem list_fields_at_most_five (text : str) :
  let r := prd_response text in
  (length (user_stories r) <= 5
   /\ length (success_metrics r) <= 5
   /\ length (risks r) <= 5)
  /\ (5 < length (parse_user_stories text) ->
      user_stories r = firstn 5 (parse_user_stories text))
  /\ (5 < length (parse_success_metrics text) ->
      success_metrics r = firstn 5 (parse_success_metrics text))
  /\ (5 < length (parse_risks text) ->
      risks r = firstn 5 (parse_risks text)).
Proof.
  cbn zeta. unfold prd_response. cbn [user_stories success_metrics risks].
  repeat split; try (apply first5_or_length; vm_compute; lia);
    apply first5_or_many.
Qed.

Lemma list_fields_at_most_five_witness :
  5 < length (parse_user_stories Sample.reply_six_stories)
  /\ user_stories (prd_response Sample.reply_six_stories)
     = firstn 5 (parse_user_stories Sample.reply_six_stories)
  /\ length (user_stories (prd_response Sample.reply_six_stories)) = 5.
Proof.
  assert (H : 5 < length (parse_user_stories Sample.reply_six_stories))
    by (vm_compute; lia).
  split; [exact H|]. split.
  - exact (proj1 (proj2 (list_fields_at_most_five Sample.reply_six_stories))
                 H).
  - vm_compute. reflexivity.
Defined.

(** C6: when the Code Examples block is located, [code_examples] has two
    entries: the requested language with the first 500 characters of the
    block, and JavaScript with the characters 500 to 999 of a block longer
    than 500 characters, the whole block otherwise; for a block of 400
    characters the second code is the whole block. *)
Theorem code_examples_two_slices
        (request : APIDocRequest) (text : str) (m : result) :
  re_search examples_re text = Some m ->
  let block := group1 m in
  exists second,
    code_examples (api_response request text)
    = [ {| ex_language := language request; ex_code := firstn 500 block |};
        {| ex_language := u "JavaScript"; ex_code := second |} ]
    /\ (500 < length block ->
        forall i, nth_error second i
                  = if (i <? 500)%nat then nth_error block (500 + i)
                    else None)
    /\ (length block <= 500 -> second = block)
    /\ (length block = 400 -> second = block).
Proof.
  intros H block. unfold api_response, parse_code_examples.
  cbn [code_examples]. rewrite H. fold block. cbn [truthy].
  eexists. split; [reflexivity|]. unfold slice.
  split; [|split].
  - intros L i. apply Nat.ltb_lt in L. rewrite L.
    change (1000 - 500) with 500.
    now rewrite nth_error_firstn, nth_error_skipn.
  - intros L. apply Nat.ltb_ge in L. now rewrite L.
  - intros L. rewrite L. reflexivity.
Qed.

Lemma code_examples_two_slices_witness :
  re_search examples_re Sample.api_reply_400
  = Some (Some Sample.block_400, [])
  /\ length Sample.block_400 = 400
  /\ code_examples (api_response Sample.api_request Sample.api_reply_400)
     = [ {| ex_language := u "Python"; ex_code := Sample.block_400 |};
         {| ex_language := u "JavaScript"; ex_code := Sample.block_400 |} ].
Proof.
  assert (E : re_search examples_re Sample.api_reply_400
              = Some (Some Sample.block_400, []))
    by (vm_compute; reflexivity).
  split; [exact E|]. split; [reflexivity|].
  destruct (code_examples_two_slices Sample.api_request _ _ E)
    as (second & -> & _ & _ & S).
  rewrite (S eq_refl). reflexivity.
Defined.

(** A block of 1200 characters: 500 and 500, the last 200 in neither. *)
Example code_examples_long_block :
  map (fun e => length (ex_code e))
      (code_examples (api_response Sample.api_request Sample.api_reply_1200))
  = [500; 500]
  /\ map ex_code
         (code_examples
            (api_response Sample.api_request Sample.api_reply_1200))
     = [repeat 120%N 500; repeat 121%N 500].
Proof. vm_compute. split; reflexivity. Qed.

(** What C7 says of an absent heading holds: without the Timeline heading
    line, [timeline] is "2-4 weeks". *)
Lemma timeline_fallback_when_absent (text : str) :
  contains (u "## ⏱️ Timeline" ++ [nl]) text = false ->
  timeline (prd_response text) = u "2-4 weeks".
Proof.
  intros H. unfold prd_response, parse_timeline. cbn [timeline].
  now rewrite timeline_absent.
Qed.

(** A located Timeline block is taken whole and trimmed. *)
Lemma timeline_is_trimmed_block (text : str) (m : result) :
  re_search timeline_re text = Some m ->
  timeline (prd_response text) = strip (group1 m).
Proof.
  intros H. unfold prd_response, parse_timeline. cbn [timeline].
  now rewrite H.
Qed.

(** C7, violated where the heading is present: in a reply that ends with
    its Timeline section the heading is present and [timeline] is still the
    fallback "2-4 weeks", not the body "3 weeks"; the same slip as in C2.
    With a separator after the section the body is returned. *)
Theorem timeline_last_falls_back :
  contains (u "## ⏱️ Timeline" ++ [nl]) Sample.reply_timeline_last = true
  /\ timeline (prd_response Sample.reply_timeline_last) = u "2-4 weeks"
  /\ timeline (prd_response (Sample.reply_timeline_last ++ [nl] ++ u "---"))
     = u "3 weeks".
Proof. vm_compute. repeat split. Qed.

(** C8: /api/generate-prd answers 400 exactly when [feature_idea] is empty
    or all whitespace, /api/generate-api-docs exactly when [code] is; no
    other field of the request and nothing the upstream does plays a part. *)
Theorem validation_400_iff :
  (forall (client : client_t) (request : PRDRequest),
      status (generate_prd client request) = 400%N
      <-> forallb isspace (feature_idea request) = true)
  /\ (forall (client : client_t) (request : APIDocRequest),
         status (generate_api_docs client request) = 400%N
         <-> forallb isspace (code request) = true).
Proof.
  split; intros client request; rewrite <- strip_empty.
  - unfold generate_prd.
    destruct (strip (feature_idea request)) as [|c t] eqn:E; cbn.
    + tauto.
    + destruct (client _ _); cbn; split; discriminate.
  - unfold generate_api_docs.
    destruct (strip (code request)) as [|c t] eqn:E; cbn.
    + tauto.
    + destruct (client _ _); cbn; split; discriminate.
Qed.

(** A whitespace-only [target_audience], [language] or [project_name] is
    accepted. *)
Example blank_side_fields_accepted :
  status (generate_prd (Sample.replies []) Sample.prd_request) = 200%N
  /\ status (generate_api_docs (Sample.replies [])
               {| code := u "x = 1"; language := u "  ";
                  project_name := u " " |}) = 200%N
  /\ status (generate_prd (Sample.replies [])
               {| feature_idea := u "  "; target_audience := u "Developers";
                  problem_statement := u "Slow builds" |}) = 400%N.
Proof. vm_compute. repeat split. Qed.

(** C9, as stated, fails: a field that cannot be parsed does not always
    degrade to its fallback. For a reply whose Timeline block is blank the
    request succeeds and [timeline] is the empty string, not "2-4 weeks". *)
Lemma blank_timeline_does_not_fall_back :
  generate_prd (Sample.replies Sample.reply_blank_timeline)
               Sample.prd_request
  = Ok (prd_response Sample.reply_blank_timeline)
  /\ option_map (fun m => strip (group1 m))
                (re_search timeline_re Sample.reply_blank_timeline)
     = Some []
  /\ timeline (prd_response Sample.reply_blank_timeline) = []
  /\ timeline (prd_response Sample.reply_blank_timeline)
     <> default_timeline.
Proof.
  split; [unfold generate_prd; vm_compute (truthy _); reflexivity|].
  vm_compute. repeat split. discriminate.
Qed.

(** C9, amended: once a request has passed validation, a failing
    completion call gives HTTP 500 whose detail ends with the message of
    the error, and so does a reply without text (the first [re.search]
    raises); a reply with a text, whatever the text, gives HTTP 200 with
    the assembled response. In that response [prd_document] is the text;
    every other field is its fallback when its block is not located;
    [user_stories], [success_metrics], [risks], [openapi_spec] and
    [markdown_docs] are their fallback also when the located block yields
    nothing; [timeline] of a located block is the trimmed block, blank or
    not, and [code_examples] of a located block are its two slices. *)
Theorem upstream_failure_500_extraction_total :
  (forall (client : client_t) (request : PRDRequest),
      truthy (strip (feature_idea request)) = true ->
      match client prd_system (prd_prompt request) with
      | Raised e =>
        generate_prd client request
        = HTTPException 500 (u "Error generating PRD: " ++ e)
      | NoContent =>
        generate_prd client request
        = HTTPException 500 (u "Error generating PRD: " ++ none_type_error)
      | Content text =>
        exists r,
        generate_prd client request = Ok r
        /\ prd_document r = text
        /\ falls_back (re_search stories_re text)
                      (fun m => stories_by_line (group1 m)) (firstn 5)
                      default_user_stories (user_stories r)
        /\ falls_back (re_search metrics_re text)
                      (fun m => bullets_by_line (group1 m)) (firstn 5)
                      default_success_metrics (success_metrics r)
        /\ falls_back (re_search risks_re text)
                      (fun m => bullets_by_line (group1 m)) (firstn 5)
                      default_risks (risks r)
        /\ match re_search timeline_re text with
           | None => timeline r = default_timeline
           | Some m => timeline r = strip (group1 m)
           end
      end)
  /\ (forall (client : client_t) (request : APIDocRequest),
         truthy (strip (code request)) = true ->
         match client api_system (api_prompt request) with
         | Raised e =>
           generate_api_docs client request
           = HTTPException 500 (u "Error generating API docs: " ++ e)
         | NoContent =>
           generate_api_docs client request
           = HTTPException 500
               (u "Error generating API docs: " ++ none_type_error)
         | Content text =>
           exists a,
           generate_api_docs client request = Ok a
           /\ falls_back (re_search openapi_re text)
                         (fun m => strip (group1 m)) (fun x => x)
                         default_openapi_spec (openapi_spec a)
           /\ falls_back (re_search markdown_re text)
                         (fun m => strip (group1 m)) (fun x => x)
                         default_markdown_docs (markdown_docs a)
           /\ match re_search examples_re text with
              | None => code_examples a = default_code_examples request
              | Some m =>
                code_examples a
                = [ {| ex_language := language request;
                       ex_code := firstn 500 (group1 m) |};
                    {| ex_language := u "JavaScript";
                       ex_code := if (500 <? length (group1 m))%nat
                                  then firstn 500 (skipn 500 (group1 m))
                                  else group1 m |} ]
              end
         end).
Proof.
  split.
  - intros client request H. unfold generate_prd. rewrite H. cbn [negb].
    destruct (client prd_system (prd_prompt request)) as [e|text|];
      [reflexivity| |reflexivity].
    exists (prd_response text). split; [reflexivity|].
    split; [reflexivity|].
    split; [apply user_stories_fall_back|].
    split; [apply success_metrics_fall_back|].
    split; [apply risks_fall_back|apply timeline_cases].
  - intros client request H. unfold generate_api_docs. rewrite H.
    cbn [negb].
    destruct (client api_system (api_prompt request)) as [e|text|];
      [reflexivity| |reflexivity].
    exists (api_response request text). split; [reflexivity|].
    split; [apply openapi_spec_falls_back|].
    split; [apply markdown_docs_falls_back|apply code_examples_cases].
Qed.

Lemma upstream_failure_500_extraction_total_witness :
  truthy (strip (feature_idea Sample.prd_request)) = true
  /\ generate_prd (Sample.fails (u "Connection error.")) Sample.prd_request
     = HTTPException 500 (u "Error generating PRD: " ++ u "Connection error.")
  /\ generate_prd Sample.no_content Sample.prd_request
     = HTTPException 500 (u "Error generating PRD: " ++ none_type_error)
  /\ (exists r,
        generate_prd (Sample.replies Sample.reply_risks_last)
                     Sample.prd_request = Ok r
        /\ risks r = default_risks
        /\ timeline r = u "3 weeks")
  /\ truthy (strip (code Sample.api_request)) = true
  /\ generate_api_docs (Sample.fails (u "Rate limit reached"))
                       Sample.api_request
     = HTTPException 500
         (u "Error generating API docs: " ++ u "Rate limit reached").
Proof.
  destruct upstream_failure_500_extraction_total as (P & A).
  assert (V : truthy (strip (feature_idea Sample.prd_request)) = true)
    by (vm_compute; reflexivity).
  assert (W : truthy (strip (code Sample.api_request)) = true)
    by (vm_compute; reflexivity).
  split; [exact V|].
  split; [exact (P (Sample.fails (u "Connection error."))
                   Sample.prd_request V)|].
  split; [exact (P Sample.no_content Sample.prd_request V)|].
  split.
  - destruct (P (Sample.replies Sample.reply_risks_last)
                Sample.prd_request V)
      as (r & E & D & _ & _ & R & T).
    exists r. split; [exact E|].
    assert (N : re_search risks_re Sample.reply_risks_last = None)
      by (vm_compute; reflexivity).
    assert (S : option_map (fun m => strip (group1 m))
                           (re_search timeline_re Sample.reply_risks_last)
                = Some (u "3 weeks"))
      by (vm_compute; reflexivity).
    unfold falls_back in R. rewrite N in R. split; [exact R|].
    destruct (re_search timeline_re Sample.reply_risks_last) as [m|];
      [|discriminate].
    cbn [option_map] in S. injection S as S. now rewrite T.
  - split; [exact W|].
    exact (A (Sample.fails (u "Rate limit reached")) Sample.api_request W).
Defined.

(** C10: in the API documentation pipeline a located block that is blank
    gives the default of its field, like a heading that is absent. *)
Theorem blank_block_falls_back (request : APIDocRequest) (text : str) :
  (forall m, re_search openapi_re text = Some m ->
             strip (group1 m) = [] ->
             openapi_spec (api_response request text) = default_openapi_spec)
  /\ (forall m, re_search markdown_re text = Some m ->
                strip (group1 m) = [] ->
                markdown_docs (api_response request text)
                = default_markdown_docs)
  /\ (re_search openapi_re text = None ->
      openapi_spec (api_response request text) = default_openapi_spec)
  /\ (re_search markdown_re text = None ->
      markdown_docs (api_response request text) = default_markdown_docs).
Proof.
  unfold api_response, parse_openapi_spec, parse_markdown_docs.
  cbn [openapi_spec markdown_docs].
  repeat split.
  - intros m -> ->. reflexivity.
  - intros m -> ->. reflexivity.
  - intros ->. reflexivity.
  - intros ->. reflexivity.
Qed.

Lemma blank_block_falls_back_witness :
  re_search openapi_re Sample.api_reply_blank
  = Some (Some (u "   " ++ [nl]), u "## 💻 Code Examples" ++ [nl] ++ u "print(1)")
  /\ strip (u "   " ++ [nl]) = []
  /\ openapi_spec (api_response Sample.api_request Sample.api_reply_blank)
     = default_openapi_spec
  /\ markdown_docs (api_response Sample.api_request Sample.api_reply_blank)
     = default_markdown_docs.
Proof.
  assert (O : re_search openapi_re Sample.api_reply_blank
              = Some (Some (u "   " ++ [nl]),
                      u "## 💻 Code Examples" ++ [nl] ++ u "print(1)"))
    by (vm_compute; reflexivity).
  assert (M : re_search markdown_re Sample.api_reply_blank
              = Some (Some (u "  " ++ [nl]),
                      skipn 37 Sample.api_reply_blank))
    by (vm_compute; reflexivity).
  destruct (blank_block_falls_back Sample.api_request Sample.api_reply_blank)
    as (HO & HM & _ & _).
  split; [exact O|]. split; [vm_compute; reflexivity|]. split.
  - exact (HO _ O eq_refl).
  - exact (HM _ M eq_refl).
Defined.

(* ================================================================== *)
(** * Where the heading patterns find their block *)

Section BlockFacts.

Lemma lazy_dot_ext (d : bool) (s : str) (k k' : str -> option result) :
  (forall s', k s' = k' s') -> lazy_dot d s k = lazy_dot d s k'.
Proof.
  intros H. induction s as [|c s IH]; cbn [lazy_dot]; rewrite H;
    [reflexivity|].
  destruct (k' (c :: s)); [reflexivity|]. now rewrite IH.
Qed.

Lemma until_Some (stop : str -> bool) (s b r : str) :
  until stop s = Some (b, r) ->
  s = b ++ r /\ stop r = true
  /\ forall i, i < length b -> stop (skipn i s) = false.
Proof.
  revert b. induction s as [|c s IH]; intros b; cbn [until].
  - destruct (stop []) eqn:E; [|discriminate].
    intros [= <- <-]. repeat split; auto. cbn. lia.
  - destruct (stop (c :: s)) eqn:E.
    + intros [= <- <-]. repeat split; auto. cbn. lia.
    + destruct (until stop s) as [[b' r']|] eqn:U; [|discriminate].
      intros [= <- <-]. destruct (IH _ eq_refl) as (-> & Hr & Hi).
      repeat split; auto.
      intros [|i] Hlt; [exact E|]. cbn [skipn]. apply Hi. cbn in Hlt. lia.
Qed.

Lemma until_suffix_None (stop : str -> bool) (q s : str) :
  until stop (q ++ s) = None -> until stop s = None.
Proof.
  induction q as [|c q IH]; [auto|]. cbn [app until].
  destruct (stop (c :: q ++ s)); [discriminate|].
  destruct (until stop (q ++ s)) as [[b r]|]; [discriminate|auto].
Qed.

(** With a stop that holds on the empty text, a block is always found. *)
Lemma until_total (stop : str -> bool) (s : str) :
  stop [] = true -> until stop s <> None.
Proof.
  intros H. induction s as [|c s IH]; cbn [until].
  - now rewrite H.
  - destruct (stop (c :: s)); [discriminate|].
    destruct (until stop s) as [[b r]|]; [discriminate|contradiction].
Qed.

Lemma after_first_Some (h text post : str) :
  after_first h text = Some post ->
  exists pre, text = pre ++ h ++ post
              /\ forall j, j < length pre ->
                           startswith h (skipn j text) = false.
Proof.
  induction text as [|c t IH]; cbn [after_first].
  - destruct (after h []) eqn:E; [|discriminate].
    intros [= <-]. exists []. cbn [app length].
    split; [now apply after_Some|lia].
  - destruct (after h (c :: t)) eqn:E.
    + intros [= <-]. exists []. cbn [app length].
    split; [now apply after_Some|lia].
    + intros H. destruct (IH H) as (pre & -> & Hj).
      exists (c :: pre). split; [reflexivity|].
      intros [|j] Hlt; cbn [skipn].
      * unfold startswith. now rewrite E.
      * apply Hj. cbn in Hlt. lia.
Qed.

Lemma after_first_contains (h text : str) :
  after_first h text = None <-> contains h text = false.
Proof.
  induction text as [|c t IH]; cbn [after_first contains]; unfold startswith.
  - destruct (after h []); cbn; split; congruence.
  - destruct (after h (c :: t)); cbn; [split; congruence|exact IH].
Qed.

(** A later occurrence of the heading leaves a suffix of what the first
    one leaves. *)
Lemma after_first_suffix (h t post post' : str) (c : char) :
  after h (c :: t) = Some post -> after_first h t = Some post' ->
  exists q, post = q ++ post'.
Proof.
  intros H1 H2. apply after_Some in H1.
  apply after_first_Some in H2 as (pre & -> & _).
  change (c :: pre ++ h ++ post') with ((c :: pre) ++ h ++ post') in H1.
  rewrite app_assoc in H1.
  assert (L : length post' <= length post).
  { apply (f_equal (@length char)) in H1. rewrite !length_app in H1.
    cbn [length] in H1. lia. }
  apply app_eq_app in H1 as [l [[H1 H3]|[H1 H3]]].
  - exists l. exact H3.
  - assert (l = []) as ->.
    { apply (f_equal (@length char)) in H3. rewrite length_app in H3.
      destruct l; [reflexivity|cbn in H3; lia]. }
    exists []. cbn in H3. now subst.
Qed.

Variables (h : str) (tail : regex) (stop : str -> bool).

(** The tail of the pattern consumes nothing and holds where [stop] does. *)
Hypothesis tail_stop :
  forall (r : str) (g : option str),
    run true tail r g (fun s' g' => Some (g', s'))
    = if stop r then Some (g, r) else None.

Lemma lazy_until (s p : str) :
  lazy_dot true s
    (fun s' => if stop s'
               then Some (Some (firstn (length (p ++ s) - length s')
                                       (p ++ s)), s')
               else None)
  = match until stop s with
    | Some (b, r) => Some (Some (p ++ b), r)
    | None => None
    end.
Proof.
  revert p. induction s as [|c s IH]; intros p; cbn [lazy_dot until].
  - destruct (stop []); [|reflexivity].
    now rewrite firstn_consumed, app_nil_r.
  - destruct (stop (c :: s)) eqn:E.
    + now rewrite firstn_consumed, app_nil_r.
    + cbn [dot_ok orb]. specialize (IH (p ++ [c])).
      rewrite <- !app_assoc in IH. cbn [app] in IH. rewrite IH.
      destruct (until stop s) as [[b r]|]; [|reflexivity].
      now rewrite <- app_assoc.
Qed.

Lemma match_here_heading (s : str) :
  match_here true (heading_re h tail) s
  = match after h s with
    | Some post =>
      match until stop post with
      | Some (b, r) => Some (Some b, r)
      | None => None
      end
    | None => None
    end.
Proof.
  unfold match_here, heading_re. cbn [run]. rewrite run_lits.
  destruct (after h s) as [post|]; [|reflexivity].
  rewrite (lazy_dot_ext true post _
             (fun s' => if stop s'
                        then Some (Some (firstn (length ([] ++ post)
                                                 - length s')
                                                ([] ++ post)), s')
                        else None)).
  - apply (lazy_until post []).
  - intros s'. apply tail_stop.
Qed.

(** [re.search] with a heading pattern: only the first occurrence of the
    heading counts, and the block runs to the first stop after it. *)
Lemma search_heading (text : str) :
  search true (heading_re h tail) text = block_after h stop text.
Proof.
  unfold block_after.
  induction text as [|c t IH]; cbn [search after_first];
    rewrite match_here_heading.
  - destruct (after h []) as [post|]; [|reflexivity].
    destruct (until stop post) as [[b r]|]; reflexivity.
  - destruct (after h (c :: t)) as [post|] eqn:E; [|exact IH].
    destruct (until stop post) as [[b r]|] eqn:U; [reflexivity|].
    rewrite IH.
    destruct (after_first h t) as [post'|] eqn:F; [|reflexivity].
    destruct (after_first_suffix _ _ _ _ _ E F) as [q ->].
    now rewrite (until_suffix_None _ _ _ U).
Qed.

End BlockFacts.

(** The tails of the patterns of [main.py]. *)
Lemma ahead3_stop (a b c r : str) (g : option str) :
  run true (Ahead (Alt (lits a) (Alt (lits b) (lits c)))) r g
      (fun s' g' => Some (g', s'))
  = if startswith a r || startswith b r || startswith c r
    then Some (g, r) else None.
Proof.
  cbn [run]. rewrite !run_lits. unfold startswith.
  destruct (after a r); [reflexivity|].
  destruct (after b r); [reflexivity|].
  destruct (after c r); reflexivity.
Qed.

Lemma ahead2_dollar_stop (a b r : str) (g : option str) :
  run true (Ahead (Alt (lits a) (Alt (lits b) Dollar))) r g
      (fun s' g' => Some (g', s'))
  = if startswith a r || startswith b r || at_dollar r
    then Some (g, r) else None.
Proof.
  cbn [run]. rewrite !run_lits. unfold startswith.
  destruct (after a r); [reflexivity|].
  destruct (after b r); [reflexivity|].
  destruct (at_dollar r); reflexivity.
Qed.

Lemma dollar_stop (r : str) (g : option str) :
  run true Dollar r g (fun s' g' => Some (g', s'))
  = if at_dollar r then Some (g, r) else None.
Proof. reflexivity. Qed.

Lemma prd_search (h marker text : str) :
  re_search (heading_re h (prd_ahead marker)) text
  = block_after h (prd_stop marker) text.
Proof.
  apply search_heading. intros r g. apply ahead3_stop.
Qed.

Lemma openapi_search (text : str) :
  re_search openapi_re text
  = block_after (u "## 🔗 OpenAPI Spec" ++ [nl]) (api_stop (u "## 💻")) text.
Proof.
  apply (search_heading (u "## 🔗 OpenAPI Spec" ++ [nl])).
  intros r g. apply ahead2_dollar_stop.
Qed.

Lemma examples_search (text : str) :
  re_search examples_re text
  = block_after (u "## 💻 Code Examples" ++ [nl]) at_dollar text.
Proof.
  apply (search_heading (u "## 💻 Code Examples" ++ [nl])).
  intros r g. apply dollar_stop.
Qed.

(** ** The API Documentation pattern: the heading line is skipped *)

Lemma after_newline_suffix_None (q s : str) :
  after_newline (q ++ s) = None -> after_newline s = None.
Proof.
  induction q as [|c q IH]; [auto|]. cbn [app after_newline].
  destruct (c =? nl)%N; [discriminate|auto].
Qed.

Lemma after_newline_Some (s body : str) :
  after_newline s = Some body ->
  exists line, s = line ++ nl :: body /\ no_newline line = true.
Proof.
  revert body. induction s as [|c s IH]; intros body; cbn [after_newline];
    [discriminate|].
  destruct (N.eqb_spec c nl) as [->|Hc].
  - intros [= <-]. exists []. split; reflexivity.
  - intros H. destruct (IH _ H) as (line & -> & Hl).
    exists (c :: line). split; [reflexivity|].
    cbn. apply N.eqb_neq in Hc. now rewrite Hc.
Qed.

(** [.*?\n] before a rest [f] that never fails stops at the first
    newline. *)
Lemma lazy_to_newline (s : str) (f : str -> option result) :
  (forall s', f s' <> None) ->
  lazy_dot true s
    (fun s1 => match s1 with
               | c :: s2 => if (nl =? c)%N then f s2 else None
               | [] => None
               end)
  = match after_newline s with
    | Some body => f body
    | None => None
    end.
Proof.
  intros F. induction s as [|c s IH]; cbn [lazy_dot after_newline];
    [reflexivity|].
  rewrite (N.eqb_sym nl c). destruct (c =? nl)%N.
  - destruct (f s) eqn:E; [reflexivity|]. now apply F in E.
  - exact IH.
Qed.

Section LineBlockFacts.

Variables (h : str) (tail : regex) (stop : str -> bool).

Hypothesis tail_stop :
  forall (r : str) (g : option str),
    run true tail r g (fun s' g' => Some (g', s'))
    = if stop r then Some (g, r) else None.

(** The block can end at the end of the text. *)
Hypothesis stop_at_end : stop [] = true.

Lemma match_here_heading_line (s : str) :
  match_here true (heading_line_re h tail) s
  = match after h s with
    | Some post =>
      match after_newline post with
      | Some body =>
        match until stop body with
        | Some (b, r) => Some (Some b, r)
        | None => None
        end
      | None => None
      end
    | None => None
    end.
Proof.
  unfold match_here, heading_line_re. cbn [run]. rewrite run_lits.
  destruct (after h s) as [post|]; [|reflexivity].
  pose (f := fun body : str =>
               match until stop body with
               | Some (b, r) => Some (Some b, r)
               | None => @None result
               end).
  rewrite (lazy_dot_ext true post _
             (fun s1 => match s1 with
                        | c :: s2 => if (nl =? c)%N then f s2 else None
                        | [] => None
                        end)).
  - apply lazy_to_newline. intros s'. unfold f.
    destruct (until stop s') as [[b r]|] eqn:U; [discriminate|].
    exfalso. revert U. now apply until_total.
  - intros [|c s2]; [reflexivity|].
    destruct (nl =? c)%N; [|reflexivity]. unfold f.
    rewrite (lazy_dot_ext true s2 _
               (fun s' => if stop s'
                          then Some (Some (firstn (length ([] ++ s2)
                                                   - length s')
                                                  ([] ++ s2)), s')
                          else None)).
    + apply (lazy_until stop s2 []).
    + intros s'. apply tail_stop.
Qed.

Lemma search_heading_line (text : str) :
  search true (heading_line_re h tail) text = block_after_line h stop text.
Proof.
  unfold block_after_line.
  induction text as [|c t IH]; cbn [search after_first];
    rewrite match_here_heading_line.
  - destruct (after h []) as [post|]; [|reflexivity].
    destruct (after_newline post) as [body|]; [|reflexivity].
    destruct (until stop body) as [[b r]|]; reflexivity.
  - destruct (after h (c :: t)) as [post|] eqn:E; [|exact IH].
    destruct (after_newline post) as [body|] eqn:N.
    + destruct (until stop body) as [[b r]|] eqn:U; [reflexivity|].
      exfalso. revert U. now apply until_total.
    + rewrite IH.
      destruct (after_first h t) as [post'|] eqn:F; [|reflexivity].
      destruct (after_first_suffix _ _ _ _ _ E F) as [q ->].
      now rewrite (after_newline_suffix_None _ _ N).
Qed.

End LineBlockFacts.

Lemma markdown_search (text : str) :
  re_search markdown_re text
  = block_after_line (u "## 📚 API Documentation") (api_stop (u "## 🔗"))
                     text.
Proof.
  apply (search_heading_line (u "## 📚 API Documentation")).
  - intros r g. apply ahead2_dollar_stop.
  - reflexivity.
Qed.

Lemma startswith_app (l y r : str) :
  startswith l y = true -> startswith l (y ++ r) = true.
Proof.
  unfold startswith. destruct (after l y) as [q|] eqn:E; [|discriminate].
  intros _. apply after_Some in E. subst. rewrite <- app_assoc.
  now rewrite after_app.
Qed.

(** No stop literal occurs inside a block, not even across its end. *)
Lemma until_no_literal (stop : str -> bool) (l s b r : str) :
  l <> [] ->
  (forall x, startswith l x = true -> stop x = true) ->
  until stop s = Some (b, r) -> contains l b = false.
Proof.
  intros Hl Hs. revert b. induction s as [|c s IH]; intros b; cbn [until].
  - destruct (stop []); [|discriminate]. intros [= <- <-].
    destruct l; [contradiction|reflexivity].
  - destruct (stop (c :: s)) eqn:E.
    + intros [= <- <-]. destruct l; [contradiction|reflexivity].
    + destruct (until stop s) as [[b' r']|] eqn:U; [|discriminate].
      intros [= <- <-]. cbn [contains]. rewrite (IH _ eq_refl).
      rewrite orb_false_r.
      destruct (startswith l (c :: b')) eqn:S; [|reflexivity].
      apply until_Some in U as (-> & _ & _).
      apply (startswith_app _ _ r') in S. apply Hs in S.
      cbn [app] in S. congruence.
Qed.

Lemma block_after_Some (h : str) (stop : str -> bool) (text : str)
      (m : result) :
  block_after h stop text = Some m ->
  exists pre,
    text = pre ++ h ++ group1 m ++ snd m
    /\ (forall j, j < length pre -> startswith h (skipn j text) = false)
    /\ stop (snd m) = true
    /\ (forall i, i < length (group1 m) ->
                  stop (skipn i (group1 m ++ snd m)) = false)
    /\ until stop (group1 m ++ snd m) = Some (group1 m, snd m).
Proof.
  unfold block_after.
  destruct (after_first h text) as [post|] eqn:F; [|discriminate].
  destruct (until stop post) as [[b r]|] eqn:U; [|discriminate].
  intros [= <-]. cbn [group1 fst snd].
  destruct (after_first_Some _ _ _ F) as (pre & -> & Hpre).
  destruct (until_Some _ _ _ _ U) as (-> & Hr & Hi).
  exists pre. repeat split; auto.
Qed.

Lemma prd_sections_shape (P : regex) (h marker : str) :
  In (P, h, marker) prd_sections ->
  P = heading_re h (prd_ahead marker) /\ marker <> [].
Proof.
  unfold prd_sections. cbn [In].
  intros [H|[H|[H|[H|[]]]]]; injection H as <- <- <-; split;
    (reflexivity || discriminate).
Qed.

(** X1: for each of the four PRD patterns [re.search] uses only the first
    occurrence of the heading: the block runs from there to the first
    place that begins with the marker, [---] or backslash-Z, and when no
    such place follows the first occurrence nothing is located, whatever
    comes later. *)
Theorem prd_search_first_heading (P : regex) (h marker text : str) :
  In (P, h, marker) prd_sections ->
  re_search P text = block_after h (prd_stop marker) text.
Proof.
  intros H. apply prd_sections_shape in H as [-> _]. apply prd_search.
Qed.

(** X2: a block located by a PRD pattern splits the reply into the text
    before the first heading, the heading, the block and the rest; the
    rest begins with a stop and is never empty, no earlier place of the
    block does, and the block contains neither the marker nor [---]. *)
Theorem prd_block_shape (P : regex) (h marker text : str) (m : result) :
  In (P, h, marker) prd_sections ->
  re_search P text = Some m ->
  exists pre,
    text = pre ++ h ++ group1 m ++ snd m
    /\ (forall j, j < length pre -> startswith h (skipn j text) = false)
    /\ prd_stop marker (snd m) = true
    /\ (forall i, i < length (group1 m) ->
                  prd_stop marker (skipn i (group1 m ++ snd m)) = false)
    /\ contains marker (group1 m) = false
    /\ contains (u "---") (group1 m) = false
    /\ snd m <> [].
Proof.
  intros H E. apply prd_sections_shape in H as [-> Hm].
  rewrite prd_search in E.
  destruct (block_after_Some _ _ _ _ E) as (pre & T & Hpre & Hr & Hi & U).
  exists pre. repeat split; auto.
  - apply (until_no_literal (prd_stop marker) marker _ _ _ Hm) in U; auto.
    intros x Hx. unfold prd_stop. now rewrite Hx.
  - apply (until_no_literal (prd_stop marker) (u "---")) in U; auto.
    + discriminate.
    + intros x Hx. unfold prd_stop. rewrite Hx. apply orb_true_iff.
      left. apply orb_true_r.
  - intros N. rewrite N in Hr. unfold prd_stop, startswith in Hr.
    destruct marker; [contradiction|]. cbn in Hr. discriminate.
Qed.

Lemma block_after_found (h : str) (stop : str -> bool) (text : str) :
  stop [] = true ->
  match block_after h stop text with Some _ => true | None => false end
  = contains h text.
Proof.
  intros H. unfold block_after.
  destruct (after_first h text) as [post|] eqn:F.
  - destruct (until stop post) as [[b r]|] eqn:U.
    + destruct (contains h text) eqn:C; [reflexivity|].
      apply after_first_contains in C. congruence.
    + exfalso. revert U. now apply until_total.
  - symmetry. now apply after_first_contains.
Qed.

Lemma after_newline_None (s : str) :
  after_newline s = None <-> no_newline s = true.
Proof.
  induction s as [|c s IH]; cbn [after_newline no_newline forallb];
    [tauto|].
  destruct (c =? nl)%N; cbn [negb andb]; [split; discriminate|exact IH].
Qed.

Lemma at_dollar_cases (r : str) : at_dollar r = true -> r = [] \/ r = [nl].
Proof.
  destruct r as [|c [|c' r]]; cbn; auto; [|discriminate].
  intros H. apply N.eqb_eq in H. subst. auto.
Qed.

(** X3: the three patterns of the API documentation pipeline locate
    their block after the first occurrence of the heading; the API
    Documentation pattern first skips the rest of the heading line, and
    each block ends at the next-section marker, at [---SEPARATOR---] or at
    the end of the reply (the Code Examples block only at the end). *)
Theorem api_search_first_heading (text : str) :
  re_search markdown_re text
  = block_after_line (u "## 📚 API Documentation") (api_stop (u "## 🔗"))
                     text
  /\ re_search openapi_re text
     = block_after (u "## 🔗 OpenAPI Spec" ++ [nl]) (api_stop (u "## 💻"))
                   text
  /\ re_search examples_re text
     = block_after (u "## 💻 Code Examples" ++ [nl]) at_dollar text.
Proof.
  split; [apply markdown_search|].
  split; [apply openapi_search|apply examples_search].
Qed.

(** X4: in the API documentation pipeline a block is located exactly
    when its heading is in the reply: the OpenAPI Spec and Code Examples
    headings followed by a newline, the API Documentation heading followed
    by a newline somewhere after it. *)
Theorem api_block_found_iff_heading (text : str) :
  Spec.recognized openapi_re text
  = contains (u "## 🔗 OpenAPI Spec" ++ [nl]) text
  /\ Spec.recognized examples_re text
     = contains (u "## 💻 Code Examples" ++ [nl]) text
  /\ Spec.recognized markdown_re text
     = match after_first (u "## 📚 API Documentation") text with
       | Some post => negb (no_newline post)
       | None => false
       end.
Proof.
  unfold Spec.recognized. split; [|split].
  - rewrite openapi_search. now apply block_after_found.
  - rewrite examples_search. now apply block_after_found.
  - rewrite markdown_search. unfold block_after_line.
    destruct (after_first _ text) as [post|]; [|reflexivity].
    destruct (after_newline post) as [body|] eqn:N.
    + destruct (until _ body) as [[b r]|] eqn:U.
      * destruct (no_newline post) eqn:L; [|reflexivity].
        apply after_newline_None in L. congruence.
      * exfalso. revert U. now apply until_total.
    + apply after_newline_None in N. now rewrite N.
Qed.

(** X5: the Code Examples block is everything that follows the first
    heading line up to the end of the reply, later separators and sections
    included, less one final newline when the reply ends with one. *)
Theorem examples_block_runs_to_end (text : str) (m : result) :
  re_search examples_re text = Some m ->
  exists pre,
    text = pre ++ (u "## 💻 Code Examples" ++ [nl]) ++ group1 m ++ snd m
    /\ (forall j, j < length pre ->
                  startswith (u "## 💻 Code Examples" ++ [nl])
                             (skipn j text) = false)
    /\ (snd m = [nl]
        \/ snd m = [] /\ forall b, group1 m <> b ++ [nl]).
Proof.
  intros E. rewrite examples_search in E.
  destruct (block_after_Some _ _ _ _ E) as (pre & T & Hpre & Hr & Hi & _).
  exists pre. split; [exact T|]. split; [exact Hpre|].
  destruct (at_dollar_cases _ Hr) as [R|R]; [right|now left].
  split; [exact R|]. intros b B. rewrite R, B in Hi.
  specialize (Hi (length b)). rewrite length_app in Hi. cbn [length] in Hi.
  rewrite app_nil_r, skipn_app, skipn_all, Nat.sub_diag in Hi.
  cbn in Hi. assert (length b < length b + 1) as L by lia.
  apply Hi in L. discriminate.
Qed.

(* ================================================================== *)
(** * More on stripping *)

Section StripFacts.

Lemma lstrip_idem (s : str) : lstrip (lstrip s) = lstrip s.
Proof.
  induction s as [|c s IH]; [reflexivity|]. cbn [lstrip].
  destruct (isspace c) eqn:E; [exact IH|]. cbn [lstrip]. now rewrite E.
Qed.

Lemma lstrip_app (x y : str) :
  lstrip (x ++ y)
  = match lstrip x with [] => lstrip y | _ :: _ => lstrip x ++ y end.
Proof.
  induction x as [|c x IH]; [reflexivity|]. cbn [app lstrip].
  destruct (isspace c); [exact IH|reflexivity].
Qed.

Lemma rstrip_cons_nonempty (c : char) (t : str) :
  rstrip t <> [] -> rstrip (c :: t) = c :: rstrip t.
Proof.
  unfold rstrip. cbn [rev]. rewrite lstrip_app.
  destruct (lstrip (rev t)) as [|a l]; [intros H; now destruct H|].
  intros _. now rewrite rev_app_distr.
Qed.

Lemma rstrip_cons_nonspace (c : char) (t : str) :
  isspace c = false -> rstrip (c :: t) = c :: rstrip t.
Proof.
  intros H. unfold rstrip. cbn [rev]. rewrite lstrip_app.
  destruct (lstrip (rev t)) as [|a l].
  - cbn [lstrip]. now rewrite H.
  - now rewrite rev_app_distr.
Qed.

Lemma rstrip_idem (s : str) : rstrip (rstrip s) = rstrip s.
Proof. unfold rstrip. now rewrite rev_involutive, lstrip_idem. Qed.

Lemma strip_idem (s : str) : strip (strip s) = strip s.
Proof.
  unfold strip. destruct (lstrip s) as [|c t] eqn:E; [reflexivity|].
  pose proof (lstrip_head _ _ _ E) as Hc.
  rewrite (rstrip_cons_nonspace _ t Hc). cbn [lstrip]. rewrite Hc.
  rewrite <- (rstrip_cons_nonspace _ t Hc). apply rstrip_idem.
Qed.

Lemma trimmed_strip (s : str) : trimmed (strip s) = true.
Proof.
  unfold trimmed. rewrite strip_idem.
  destruct (list_eq_dec N.eq_dec (strip s) (strip s)); congruence.
Qed.

Lemma no_newline_lstrip (s : str) :
  no_newline s = true -> no_newline (lstrip s) = true.
Proof.
  induction s as [|c s IH]; [auto|]. cbn [lstrip].
  destruct (isspace c); [|auto].
  intros H. apply IH. cbn in H. apply andb_true_iff in H. tauto.
Qed.

Lemma no_newline_rev (s : str) : no_newline (rev s) = no_newline s.
Proof. apply forallb_rev. Qed.

Lemma no_newline_strip (s : str) :
  no_newline s = true -> no_newline (strip s) = true.
Proof.
  intros H. unfold strip, rstrip. rewrite no_newline_rev.
  apply no_newline_lstrip. rewrite no_newline_rev.
  now apply no_newline_lstrip.
Qed.

(** A story keeps its first words when it is stripped. *)
Lemma strip_As_a (r : str) :
  startswith (u "As a") (strip (u "As a" ++ r)) = true.
Proof.
  change (u "As a") with [65; 115; 32; 97]%N. cbn [app].
  unfold strip. cbn [lstrip].
  change (isspace 65%N) with false. cbn iota.
  rewrite (rstrip_cons_nonspace 65%N) by reflexivity.
  rewrite (rstrip_cons_nonspace 115%N) by reflexivity.
  rewrite (rstrip_cons_nonempty 32%N)
    by (rewrite rstrip_cons_nonspace by reflexivity; discriminate).
  rewrite (rstrip_cons_nonspace 97%N) by reflexivity.
  reflexivity.
Qed.

End StripFacts.

(* ================================================================== *)
(** * Items and lines *)

Section ItemLineFacts.

Lemma lines_no_newline (s : str) :
  Forall (fun l => no_newline l = true) (lines s).
Proof.
  induction s as [|c s IH]; cbn [lines]; [repeat constructor|].
  destruct (c =? nl)%N eqn:E; [now constructor|].
  destruct (lines s) as [|l ls]; [repeat constructor; cbn; now rewrite E|].
  inversion IH as [|? ? Hl Hls]; subst.
  constructor; [|exact Hls]. unfold no_newline in *. cbn [forallb].
  now rewrite E, Hl.
Qed.

Lemma first_item_Some (marker head line x : str) :
  first_item marker head line = Some x ->
  exists q r, line = q ++ marker ++ head ++ r /\ x = head ++ r.
Proof.
  induction line as [|c line IH]; cbn [first_item].
  - destruct (after (marker ++ head) []) as [r|] eqn:E; [|discriminate].
    intros [= <-]. exists [], r. rewrite (after_skipn _ _ _ _ E).
    split; [|reflexivity]. apply after_Some in E.
    now rewrite <- app_assoc in E.
  - destruct (after (marker ++ head) (c :: line)) as [r|] eqn:E.
    + intros [= <-]. exists [], r. rewrite (after_skipn _ _ _ _ E).
      split; [|reflexivity]. apply after_Some in E.
      now rewrite <- app_assoc in E.
    + intros H. destruct (IH H) as (q & r & -> & ->).
      now exists (c :: q), r.
Qed.

Lemma items_by_line_In (marker head block x : str) :
  In x (items_by_line marker head block) ->
  exists q r, In (q ++ marker ++ head ++ r) (lines block) /\ x = head ++ r.
Proof.
  unfold items_by_line. intros H. apply in_flat_map in H as (line & L & H).
  destruct (first_item marker head line) as [y|] eqn:E; [|contradiction].
  destruct H as [<-|[]].
  destruct (first_item_Some _ _ _ _ E) as (q & r & -> & ->). eauto.
Qed.

Lemma items_by_line_no_newline (marker head block : str) :
  Forall (fun x => no_newline x = true) (items_by_line marker head block).
Proof.
  apply Forall_forall. intros x H.
  apply items_by_line_In in H as (q & r & L & ->).
  pose proof (lines_no_newline block) as F.
  rewrite Forall_forall in F. apply F in L.
  apply no_newline_app in L as [_ L]. now apply no_newline_app in L as [_ L].
Qed.

Lemma strip_nonempty_Forall_map (P : str -> Prop) (items : list str) :
  Forall (fun x => P (strip x)) items -> Forall P (strip_nonempty items).
Proof.
  unfold strip_nonempty. induction 1 as [|a l Ha Hl IH]; cbn; [constructor|].
  destruct (truthy (strip a)); cbn; [constructor|]; auto.
Qed.

Lemma Forall_all (P : str -> Prop) (items : list str) :
  (forall x, P x) -> Forall P items.
Proof. intros H. apply Forall_forall. auto. Qed.

End ItemLineFacts.

(* ================================================================== *)
(** * Further properties of the code *)

(** X6: when their block is located, [success_metrics] and [risks] hold,
    for each line of the block that contains [- ], the text after the first
    [- ] of the line, trimmed, empty ones dropped, cut to five, and the
    default list when there is none. *)
Theorem bullet_lists_by_line (text : str) :
  (forall m, re_search metrics_re text = Some m ->
             success_metrics (prd_response text)
             = first5_or (strip_nonempty
                            (items_by_line (u "- ") [] (group1 m)))
                         default_success_metrics)
  /\ (forall m, re_search risks_re text = Some m ->
                risks (prd_response text)
                = first5_or (strip_nonempty
                               (items_by_line (u "- ") [] (group1 m)))
                            default_risks).
Proof.
  unfold prd_response, parse_success_metrics, parse_risks.
  cbn [success_metrics risks].
  split; intros m ->; cbn zeta; now rewrite findall_bullets.
Qed.

Lemma bullet_lists_by_line_witness :
  re_search metrics_re Sample.reply_metrics
  = Some (Some Sample.metrics_block, Sample.metrics_rest)
  /\ success_metrics (prd_response Sample.reply_metrics)
     = first5_or
         (strip_nonempty
            (items_by_line (u "- ") []
               (group1 (Some Sample.metrics_block, Sample.metrics_rest))))
         default_success_metrics
  /\ strip_nonempty (items_by_line (u "- ") [] Sample.metrics_block)
     = [u "Adoption: 40% in 3 months"; u "Q4: retention up"].
Proof.
  assert (E : re_search metrics_re Sample.reply_metrics
              = Some (Some Sample.metrics_block, Sample.metrics_rest))
    by (vm_compute; reflexivity).
  split; [exact E|]. split.
  - exact (proj1 (bullet_lists_by_line Sample.reply_metrics) _ E).
  - vm_compute. reflexivity.
Defined.

Lemma parse_lists_Forall (P : str -> Prop) (text : str) :
  (forall x, P (strip x)) ->
  Forall P (parse_user_stories text)
  /\ Forall P (parse_success_metrics text)
  /\ Forall P (parse_risks text).
Proof.
  intros H.
  unfold parse_user_stories, parse_success_metrics, parse_risks.
  repeat split;
    match goal with
    | |- Forall _ (match ?s with _ => _ end) =>
      destruct s; [|constructor]
    end;
    apply strip_nonempty_Forall_map, Forall_all, H.
Qed.

(** X7: the entries of [user_stories], [success_metrics] and [risks], and
    [timeline], [openapi_spec] and [markdown_docs] are trimmed: they have
    no leading or trailing whitespace, the fallbacks included. The strings
    of [code_examples] are not trimmed: the first entry carries the
    language of the request as it was sent, and the codes are slices of
    the block as it is, so an untrimmed language, or an untrimmed block of
    at most 500 characters, gives untrimmed entries. *)
Theorem response_strings_trimmed
        (request : APIDocRequest) (text api_text : str) :
  let r := prd_response text in
  let a := api_response request api_text in
  Forall (fun x => trimmed x = true) (user_stories r)
  /\ Forall (fun x => trimmed x = true) (success_metrics r)
  /\ Forall (fun x => trimmed x = true) (risks r)
  /\ trimmed (timeline r) = true
  /\ trimmed (openapi_spec a) = true
  /\ trimmed (markdown_docs a) = true
  /\ (exists e rest, code_examples a = e :: rest
                     /\ ex_language e = language request)
  /\ (trimmed (language request) = false ->
      exists e, In e (code_examples a) /\ trimmed (ex_language e) = false)
  /\ (forall m, re_search examples_re api_text = Some m ->
                length (group1 m) <= 500 ->
                trimmed (group1 m) = false ->
                Forall (fun e => trimmed (ex_code e) = false)
                       (code_examples a)).
Proof.
  cbn zeta.
  assert (L : exists e rest,
             code_examples (api_response request api_text) = e :: rest
             /\ ex_language e = language request).
  { pose proof (code_examples_cases api_text request) as X.
    destruct (re_search examples_re api_text); rewrite X;
      eexists _, _; split; reflexivity. }
  unfold prd_response, api_response.
  cbn [user_stories success_metrics risks timeline openapi_spec
       markdown_docs].
  destruct (parse_lists_Forall (fun x => trimmed x = true) text
                               trimmed_strip) as (S & M & R).
  split; [apply first5_or_Forall; [exact S|]; repeat constructor|].
  split; [apply first5_or_Forall; [exact M|]; repeat constructor|].
  split; [apply first5_or_Forall; [exact R|]; repeat constructor|].
  split; [|split; [|split; [|split; [|split]]]].
  - unfold parse_timeline. destruct (re_search timeline_re text);
      [apply trimmed_strip|reflexivity].
  - unfold parse_openapi_spec. destruct (re_search openapi_re api_text).
    + destruct (truthy (strip (group1 r))); [apply trimmed_strip|].
      vm_compute. reflexivity.
    + vm_compute. reflexivity.
  - unfold parse_markdown_docs. destruct (re_search markdown_re api_text).
    + destruct (truthy (strip (group1 r))); [apply trimmed_strip|].
      vm_compute. reflexivity.
    + vm_compute. reflexivity.
  - exact L.
  - intros T. destruct L as (e & rest & E & EL).
    exists e. fold (api_response request api_text). rewrite E.
    split; [now left|]. now rewrite EL.
  - intros m E Len T. fold (api_response request api_text).
    pose proof (code_examples_cases api_text request) as X.
    rewrite E in X. rewrite X.
    assert (B : (500 <? length (group1 m))%nat = false)
      by now apply Nat.ltb_ge.
    rewrite B, (firstn_all2 (group1 m)) by exact Len.
    repeat apply Forall_cons; try apply Forall_nil; exact T.
Qed.

Lemma response_strings_trimmed_witness :
  trimmed (language Sample.api_request_padded) = false
  /\ re_search examples_re Sample.api_reply_padded
     = Some (Some Sample.padded_block, [])
  /\ trimmed (group1 (Some Sample.padded_block, [])) = false
  /\ (exists e,
        In e (code_examples
                (api_response Sample.api_request_padded
                              Sample.api_reply_padded))
        /\ trimmed (ex_language e) = false)
  /\ Forall (fun e => trimmed (ex_code e) = false)
            (code_examples
               (api_response Sample.api_request_padded
                             Sample.api_reply_padded)).
Proof.
  assert (T : trimmed (language Sample.api_request_padded) = false)
    by (vm_compute; reflexivity).
  assert (E : re_search examples_re Sample.api_reply_padded
              = Some (Some Sample.padded_block, []))
    by (vm_compute; reflexivity).
  assert (B : trimmed (group1 (Some Sample.padded_block, [])) = false)
    by (vm_compute; reflexivity).
  assert (Len : length (group1 (Some Sample.padded_block, [])) <= 500)
    by (vm_compute; lia).
  destruct (response_strings_trimmed Sample.api_request_padded []
                                     Sample.api_reply_padded)
    as (_ & _ & _ & _ & _ & _ & _ & HL & HC).
  split; [exact T|]. split; [exact E|]. split; [exact B|].
  split; [exact (HL T)|exact (HC _ E Len B)].
Defined.

(** X8: every entry of [user_stories] begins with [As a], the extracted
    ones and the canned one alike. *)
Theorem user_stories_start_with_As_a (text : str) :
  Forall (fun x => startswith (u "As a") x = true)
         (user_stories (prd_response text)).
Proof.
  unfold prd_response. cbn [user_stories].
  apply first5_or_Forall; [|repeat constructor].
  unfold parse_user_stories.
  destruct (re_search stories_re text) as [m|]; [|constructor].
  cbn zeta. rewrite findall_stories.
  apply strip_nonempty_Forall_map, Forall_forall. intros x H.
  apply items_by_line_In in H as (q & r & _ & ->). apply strip_As_a.
Qed.

(** X9: no entry of [user_stories], [success_metrics] or [risks] contains
    a newline. *)
Theorem list_entries_single_line (text : str) :
  let r := prd_response text in
  Forall (fun x => no_newline x = true) (user_stories r)
  /\ Forall (fun x => no_newline x = true) (success_metrics r)
  /\ Forall (fun x => no_newline x = true) (risks r).
Proof.
  cbn zeta. unfold prd_response. cbn [user_stories success_metrics risks].
  assert (I : forall marker head block,
             Forall (fun x => no_newline x = true)
                    (strip_nonempty (items_by_line marker head block))).
  { intros marker head block. apply strip_nonempty_Forall_map.
    pose proof (items_by_line_no_newline marker head block) as F.
    rewrite Forall_forall in *. intros x H.
    now apply no_newline_strip, F. }
  repeat split; (apply first5_or_Forall; [|repeat constructor]).
  - unfold parse_user_stories.
    destruct (re_search stories_re text); [|constructor].
    cbn zeta. rewrite findall_stories. apply I.
  - unfold parse_success_metrics.
    destruct (re_search metrics_re text); [|constructor].
    cbn zeta. rewrite findall_bullets. apply I.
  - unfold parse_risks.
    destruct (re_search risks_re text); [|constructor].
    cbn zeta. rewrite findall_bullets. apply I.
Qed.

(** ** Prompts *)

Lemma contains_of_startswith (l s : str) :
  startswith l s = true -> contains l s = true.
Proof. destruct s; cbn [contains]; intros ->; reflexivity. Qed.

Lemma contains_app_r (l a b : str) :
  contains l b = true -> contains l (a ++ b) = true.
Proof.
  intros H. induction a as [|c a IH]; [exact H|].
  cbn [app contains]. rewrite IH. apply orb_true_r.
Qed.

Lemma contains_app_l (l a b : str) :
  contains l a = true -> contains l (a ++ b) = true.
Proof.
  induction a as [|c a IH]; intros H.
  - cbn [contains] in H. rewrite orb_false_r in H.
    apply contains_of_startswith. now apply (startswith_app l [] b).
  - cbn [app contains] in *. apply orb_true_iff in H as [H|H].
    + apply (startswith_app l (c :: a) b) in H. cbn [app] in H.
      now rewrite H.
    + rewrite (IH H). apply orb_true_r.
Qed.

(** X10: whatever the request, each prompt contains every heading that
    the patterns of its pipeline look for, and the separator that ends
    their blocks. *)
Theorem prompts_name_every_heading
        (request : PRDRequest) (api_request : APIDocRequest) :
  Forall (fun s => contains (snd (fst s)) (prd_prompt request) = true)
         prd_sections
  /\ contains (u "---") (prd_prompt request) = true
  /\ contains (u "## 📚 API Documentation") (api_prompt api_request) = true
  /\ contains (u "## 🔗 OpenAPI Spec" ++ [nl]) (api_prompt api_request)
     = true
  /\ contains (u "## 💻 Code Examples" ++ [nl]) (api_prompt api_request)
     = true
  /\ contains (u "---SEPARATOR---") (api_prompt api_request) = true.
Proof.
  assert (P : forall l, contains l (u "

Generate the following sections:

## 📋 PRD Document
[Complete PRD with:
- Overview
- Problem Statement
- Solution
- User Benefits
- Success Criteria
- Risks & Mitigation
- Implementation Timeline]

## 👤 User Stories
- As a [user], I want [feature] so that [benefit]
[3-5 user stories]

## 📊 Success Metrics
- Metric 1: [Description and target]
- Metric 2: [Description and target]
[3-5 metrics]

## ⏱️ Timeline
[Estimated weeks to implement]

## ⚠️ Risks
- Risk 1: [Description] → Mitigation: [How to handle]
[3-5 risks]

Format with clear sections separated by ---") = true ->
                        contains l (prd_prompt request) = true).
  { intros l H. unfold prd_prompt. now do 6 apply contains_app_r. }
  assert (A : forall l, contains l (u "

CODE:

Generate the following:

## 📚 API Documentation (Markdown)
[Professional markdown documentation with:
- Overview
- Base URL
- Authentication
- Endpoints (method, path, description, parameters, response)
- Error codes
- Rate limiting
- Examples]

## 🔗 OpenAPI Spec
[Valid OpenAPI 3.0.0 JSON spec]

## 💻 Code Examples
[Working code examples in ") = true ->
                        contains l (api_prompt api_request) = true).
  { intros l H. unfold api_prompt. do 4 apply contains_app_r.
    now apply contains_app_l. }
  split; [|split; [|split; [|split; [|split]]]].
  - unfold prd_sections. repeat constructor; cbn [fst snd]; apply P;
      vm_compute; reflexivity.
  - apply P. vm_compute. reflexivity.
  - apply A. vm_compute. reflexivity.
  - apply A. vm_compute. reflexivity.
  - apply A. vm_compute. reflexivity.
  - unfold api_prompt. do 6 apply contains_app_r. vm_compute. reflexivity.
Qed.

(** X11: the prompt of the API documentation pipeline does not contain
    the submitted code: two requests with the same language and project
    name and any two non-blank codes give the same prompt and the same
    result. *)
Theorem api_docs_ignore_the_code
        (client : client_t) (r1 r2 : APIDocRequest) :
  language r1 = language r2 ->
  project_name r1 = project_name r2 ->
  truthy (strip (code r1)) = true ->
  truthy (strip (code r2)) = true ->
  api_prompt r1 = api_prompt r2
  /\ generate_api_docs client r1 = generate_api_docs client r2.
Proof.
  destruct r1 as [c1 l1 p1], r2 as [c2 l2 p2]. cbn [language project_name code].
  intros <- <- H1 H2.
  assert (E : api_prompt {| code := c1; language := l1; project_name := p1 |}
              = api_prompt {| code := c2; language := l1;
                              project_name := p1 |})
    by (unfold api_prompt; cbn [language project_name]; reflexivity).
  split; [exact E|].
  unfold generate_api_docs. cbn [code]. rewrite H1, H2, E. cbn [negb].
  destruct (client api_system _); reflexivity.
Qed.

Lemma api_docs_ignore_the_code_witness :
  code Sample.api_request <> code Sample.api_request_other_code
  /\ api_prompt Sample.api_request = api_prompt Sample.api_request_other_code
  /\ generate_api_docs (Sample.replies Sample.api_reply_full)
                       Sample.api_request
     = generate_api_docs (Sample.replies Sample.api_reply_full)
                         Sample.api_request_other_code.
Proof.
  split; [vm_compute; discriminate|].
  exact (api_docs_ignore_the_code
           (Sample.replies Sample.api_reply_full)
           Sample.api_request Sample.api_request_other_code
           eq_refl eq_refl eq_refl eq_refl).
Defined.

(** X12: a handler answers 200 only for a request that passed validation
    and a completion call that returned; the body is then the response
    assembled from that reply, and [prd_document] is the reply. *)
Theorem ok_response_is_the_assembled_reply (client : client_t) :
  (forall (request : PRDRequest) (r : PRDResponse),
      generate_prd client request = Ok r ->
      forallb isspace (feature_idea request) = false
      /\ client prd_system (prd_prompt request) = Content (prd_document r)
      /\ r = prd_response (prd_document r))
  /\ (forall (request : APIDocRequest) (a : APIDocResponse),
         generate_api_docs client request = Ok a ->
         forallb isspace (code request) = false
         /\ exists text,
             client api_system (api_prompt request) = Content text
             /\ a = api_response request text).
Proof.
  split.
  - intros request r. unfold generate_prd.
    destruct (truthy (strip (feature_idea request))) eqn:V; cbn [negb];
      [|discriminate].
    destruct (client prd_system (prd_prompt request)) as [e|text|];
      [discriminate| |discriminate].
    intros [= <-]. cbn [prd_document]. repeat split.
    destruct (forallb isspace (feature_idea request)) eqn:F; [|reflexivity].
    apply strip_empty in F. rewrite F in V. discriminate.
  - intros request a. unfold generate_api_docs.
    destruct (truthy (strip (code request))) eqn:V; cbn [negb];
      [|discriminate].
    destruct (client api_system (api_prompt request)) as [e|text|];
      [discriminate| |discriminate].
    intros [= <-]. split; [|eauto].
    destruct (forallb isspace (code request)) eqn:F; [|reflexivity].
    apply strip_empty in F. rewrite F in V. discriminate.
Qed.

Lemma ok_response_is_the_assembled_reply_witness :
  generate_prd (Sample.replies Sample.reply_risks_last) Sample.prd_request
  = Ok (prd_response Sample.reply_risks_last)
  /\ Sample.replies Sample.reply_risks_last prd_system
                    (prd_prompt Sample.prd_request)
     = Content (prd_document (prd_response Sample.reply_risks_last)).
Proof.
  assert (E : generate_prd (Sample.replies Sample.reply_risks_last)
                           Sample.prd_request
              = Ok (prd_response Sample.reply_risks_last))
    by (unfold generate_prd; vm_compute (truthy _); reflexivity).
  split; [exact E|].
  exact (proj1 (proj2 (proj1 (ok_response_is_the_assembled_reply
                                (Sample.replies Sample.reply_risks_last))
                             _ _ E))).
Defined.

(** ** Code examples *)

Lemma firstn_plus {A} (n k : nat) (l : list A) :
  firstn (n + k) l = firstn n l ++ firstn k (skipn n l).
Proof.
  revert l. induction n as [|n IH]; intros [|a l]; cbn [Nat.add firstn skipn app];
    try reflexivity.
  - now rewrite firstn_nil.
  - now rewrite IH.
Qed.

(** X13: every entry of [code_examples] has a code of at most 500
    characters. *)
Theorem code_examples_at_most_500 (request : APIDocRequest) (text : str) :
  Forall (fun e => length (ex_code e) <= 500)
         (code_examples (api_response request text)).
Proof.
  unfold api_response, parse_code_examples. cbn [code_examples].
  destruct (re_search examples_re text) as [m|]; cbn [truthy].
  - apply Forall_cons; [|apply Forall_cons; [|apply Forall_nil]];
      cbn [ex_code]; unfold slice_to, slice.
    + apply firstn_le_length.
    + destruct (500 <? length (group1 m))%nat eqn:L.
      * change (1000 - 500) with 500. apply firstn_le_length.
      * now apply Nat.ltb_ge in L.
  - apply Forall_cons; [|apply Forall_nil]. cbn [ex_code]. vm_compute. lia.
Qed.

(** X14: when the Code Examples block is located, the two codes put
    together are the first 1000 characters of a block longer than 500
    characters, and twice the block otherwise; nothing beyond the first
    1000 characters is returned. *)
Theorem code_examples_cover_first_1000
        (request : APIDocRequest) (text : str) (m : result) :
  re_search examples_re text = Some m ->
  concat (map ex_code (code_examples (api_response request text)))
  = if (500 <? length (group1 m))%nat
    then firstn 1000 (group1 m)
    else group1 m ++ group1 m.
Proof.
  intros E. unfold api_response, parse_code_examples. cbn [code_examples].
  rewrite E. cbn [truthy map concat ex_code]. rewrite app_nil_r.
  unfold slice_to, slice. destruct (500 <? length (group1 m))%nat eqn:L.
  - change (1000 - 500) with 500. change 1000 with (500 + 500).
    now rewrite firstn_plus.
  - apply Nat.ltb_ge in L. now rewrite firstn_all2.
Qed.

Lemma code_examples_cover_first_1000_witness :
  re_search examples_re Sample.api_reply_1200
  = Some (Some Sample.block_1200, [])
  /\ concat (map ex_code
               (code_examples
                  (api_response Sample.api_request Sample.api_reply_1200)))
     = (if (500 <? length (group1 (Some Sample.block_1200, [])))%nat
        then firstn 1000 (group1 (Some Sample.block_1200, []))
        else group1 (Some Sample.block_1200, [])
             ++ group1 (Some Sample.block_1200, []))
  /\ (500 <? length Sample.block_1200)%nat = true.
Proof.
  assert (E : re_search examples_re Sample.api_reply_1200
              = Some (Some Sample.block_1200, []))
    by (vm_compute; reflexivity).
  split; [exact E|]. split.
  - exact (code_examples_cover_first_1000 Sample.api_request _ _ E).
  - vm_compute. reflexivity.
Defined.

(** ** Static pages and health check *)

(** X15: GET / and GET /app each answer 200 with the text of their file
    (an empty page for an empty file), 200 with their inline notice when
    the file is missing, never another status, and let any other error
    through; GET / depends on [login.html] only and GET /app on
    [index.html] only. *)
Theorem static_pages_never_404 (fs : filesystem) :
  ((forall content,
       fs (u "../frontend/login.html") = Read content ->
       serve_login fs = HTMLResponse 200 content)
   /\ (fs (u "../frontend/login.html") = FileNotFoundError ->
       serve_login fs
       = HTMLResponse 200 (u "<h1>❌ login.html not found</h1>"))
   /\ (forall e, fs (u "../frontend/login.html") = OtherError e ->
                 serve_login fs = Unhandled e)
   /\ (forall code content,
          serve_login fs = HTMLResponse code content -> code = 200%N)
   /\ (forall fs', fs' (u "../frontend/login.html")
                   = fs (u "../frontend/login.html") ->
                   serve_login fs' = serve_login fs))
  /\ ((forall content,
          fs (u "../frontend/index.html") = Read content ->
          serve_tool fs = HTMLResponse 200 content)
      /\ (fs (u "../frontend/index.html") = FileNotFoundError ->
          serve_tool fs
          = HTMLResponse 200 (u "<h1>❌ index.html not found</h1>"))
      /\ (forall e, fs (u "../frontend/index.html") = OtherError e ->
                    serve_tool fs = Unhandled e)
      /\ (forall code content,
             serve_tool fs = HTMLResponse code content -> code = 200%N)
      /\ (forall fs', fs' (u "../frontend/index.html")
                      = fs (u "../frontend/index.html") ->
                      serve_tool fs' = serve_tool fs)).
Proof.
  unfold serve_login, serve_tool. split.
  - repeat split.
    + now intros content ->.
    + now intros ->.
    + now intros e ->.
    + destruct (fs (u "../frontend/login.html")); congruence.
    + now intros fs' ->.
  - repeat split.
    + now intros content ->.
    + now intros ->.
    + now intros e ->.
    + destruct (fs (u "../frontend/index.html")); congruence.
    + now intros fs' ->.
Qed.

(** X16: the health check always reports "healthy", and [api_key_set]
    is true exactly when the variable is set to a non-empty value. *)
Theorem health_key_set_iff (getenv : environ) :
  health_status (health_check getenv) = u "healthy"
  /\ (api_key_set (health_check getenv) = true
      <-> exists v, getenv (u "GROQ_API_KEY") = Some v /\ v <> []).
Proof.
  unfold health_check. cbn [health_status api_key_set]. split; [reflexivity|].
  unfold bool_of. destruct (getenv (u "GROQ_API_KEY")) as [v|].
  - rewrite truthy_true. split.
    + intros H. eauto.
    + intros (v' & [= <-] & H). exact H.
  - split; [discriminate|]. intros (v & H & _). discriminate.
Qed.

Lemma prd_search_first_heading_witness :
  In (risks_re, u "## ⚠️ Risks", u "##") prd_sections
  /\ re_search risks_re Sample.reply_risks_last
     = block_after (u "## ⚠️ Risks") (prd_stop (u "##"))
                   Sample.reply_risks_last
  /\ block_after (u "## ⚠️ Risks") (prd_stop (u "##"))
                 Sample.reply_risks_last = None.
Proof.
  assert (I : In (risks_re, u "## ⚠️ Risks", u "##") prd_sections)
    by (unfold prd_sections; cbn [In]; do 3 right; left; reflexivity).
  split; [exact I|]. split.
  - exact (prd_search_first_heading _ _ _ Sample.reply_risks_last I).
  - vm_compute. reflexivity.
Defined.

Lemma prd_block_shape_witness :
  In (stories_re, u "## 👤 User Stories", u "## ") prd_sections
  /\ re_search stories_re Sample.reply_spec_example
     = Some (Some Sample.spec_example_block, Sample.spec_example_rest)
  /\ contains (u "---")
       (group1 (Some Sample.spec_example_block, Sample.spec_example_rest))
     = false
  /\ snd (Some Sample.spec_example_block, Sample.spec_example_rest) <> [].
Proof.
  assert (I : In (stories_re, u "## 👤 User Stories", u "## ") prd_sections)
    by (unfold prd_sections; cbn [In]; left; reflexivity).
  assert (E : re_search stories_re Sample.reply_spec_example
              = Some (Some Sample.spec_example_block,
                      Sample.spec_example_rest))
    by (vm_compute; reflexivity).
  split; [exact I|]. split; [exact E|].
  destruct (prd_block_shape _ _ _ _ _ I E)
    as (pre & _ & _ & _ & _ & _ & D & N).
  split; [exact D|exact N].
Defined.

Lemma examples_block_runs_to_end_witness :
  re_search examples_re Sample.api_reply_full
  = Some (Some Sample.api_examples_block, [nl])
  /\ exists pre,
      Sample.api_reply_full
      = pre ++ (u "## 💻 Code Examples" ++ [nl])
            ++ group1 (Some Sample.api_examples_block, [nl])
            ++ snd (Some Sample.api_examples_block, [nl]).
Proof.
  assert (E : re_search examples_re Sample.api_reply_full
              = Some (Some Sample.api_examples_block, [nl]))
    by (vm_compute; reflexivity).
  split; [exact E|].
  destruct (examples_block_runs_to_end _ _ E) as (pre & T & _).
  exists pre. exact T.
Defined.

Lemma static_pages_never_404_witness :
  Sample.empty_login_only (u "../frontend/login.html") = Read []
  /\ serve_login Sample.empty_login_only = HTMLResponse 200 []
  /\ Sample.empty_login_only (u "../frontend/index.html")
     = FileNotFoundError
  /\ serve_tool Sample.empty_login_only
     = HTMLResponse 200 (u "<h1>❌ index.html not found</h1>")
  /\ Sample.both_pages (u "../frontend/index.html")
     = Read (u "<h1>Tool</h1>")
  /\ serve_tool Sample.both_pages = HTMLResponse 200 (u "<h1>Tool</h1>").
Proof.
  assert (L : Sample.empty_login_only (u "../frontend/login.html") = Read [])
    by (vm_compute; reflexivity).
  assert (M : Sample.empty_login_only (u "../frontend/index.html")
              = FileNotFoundError)
    by (vm_compute; reflexivity).
  assert (T : Sample.both_pages (u "../frontend/index.html")
              = Read (u "<h1>Tool</h1>"))
    by (vm_compute; reflexivity).
  destruct (static_pages_never_404 Sample.empty_login_only)
    as ((HL & _) & (_ & HM & _)).
  destruct (static_pages_never_404 Sample.both_pages)
    as (_ & (HT & _)).
  split; [exact L|]. split; [exact (HL _ L)|].
  split; [exact M|]. split; [exact (HM M)|].
  split; [exact T|exact (HT _ T)].
Defined.

Lemma health_key_set_iff_witness :
  api_key_set (health_check Sample.key_set) = true
  /\ api_key_set (health_check Sample.key_empty) = false.
Proof.
  split.
  - apply (proj2 (health_key_set_iff Sample.key_set)).
    exists (u "gsk_test"). split; [vm_compute; reflexivity|discriminate].
  - vm_compute. reflexivity.
Defined.

(* ================================================================== *)
(** * Replies laid out as the prompts ask *)

Section LayoutFacts.

Lemma after_first_unfold (h t : str) :
  after_first h t
  = match after h t with
    | Some post => Some post
    | None => match t with [] => None | _ :: t' => after_first h t' end
    end.
Proof. destruct t; reflexivity. Qed.

Lemma clash_after (h s rest : str) :
  clash h s = true -> after h (s ++ rest) = None.
Proof.
  revert s. induction h as [|c h IH]; intros [|c' s]; cbn [clash app after];
    try discriminate.
  destruct (c =? c')%N; auto.
Qed.

Lemma never_in_skip (h lit rest : str) :
  never_in h lit = true ->
  after_first h (lit ++ rest) = after_first h rest.
Proof.
  induction lit as [|c lit IH]; [reflexivity|]. cbn [never_in].
  intros H. apply andb_true_iff in H as [H1 H2].
  rewrite after_first_unfold, (clash_after _ _ rest H1). cbn [app].
  auto.
Qed.

Lemma after_first_here (h rest : str) :
  after_first h (h ++ rest) = Some rest.
Proof. now rewrite after_first_unfold, after_app. Qed.

(** A heading begins with [#]; a body without [#] holds no heading. *)
Lemma after_first_plain (h' p rest : str) :
  existsb (fun c => (c =? 35)%N) p = false ->
  after_first (35%N :: h') (p ++ rest) = after_first (35%N :: h') rest.
Proof.
  induction p as [|c p IH]; [reflexivity|]. cbn [existsb].
  intros H. apply orb_false_iff in H as [H1 H2].
  rewrite after_first_unfold. cbn [app after].
  rewrite N.eqb_sym, H1. auto.
Qed.

Lemma until_step (stop : str -> bool) (c : char) (s : str) :
  stop (c :: s) = false ->
  until stop (c :: s)
  = match until stop s with
    | Some (b, r) => Some (c :: b, r)
    | None => None
    end.
Proof. intros H. cbn [until]. now rewrite H. Qed.

Lemma until_here (stop : str -> bool) (s : str) :
  stop s = true -> until stop s = Some ([], s).
Proof. intros H. destruct s; cbn [until]; now rewrite H. Qed.

Lemma startswith_mismatch (a c : char) (l s : str) :
  (a =? c)%N = false -> startswith (a :: l) (c :: s) = false.
Proof. intros H. unfold startswith. cbn [after]. now rewrite H. Qed.

Lemma startswith_in_line (l x rest : str) :
  no_newline l = true ->
  startswith l (x ++ nl :: rest) = startswith l x.
Proof.
  intros H. unfold startswith. rewrite (after_in_line _ x rest H).
  destruct (after l x); reflexivity.
Qed.

Lemma contains_not_startswith (l s : str) :
  contains l s = false -> startswith l s = false.
Proof.
  intros H. apply contains_startswith in H. unfold startswith.
  now rewrite H.
Qed.

Lemma plain_cons (c : char) (p : str) :
  plain (c :: p) = true ->
  (c =? 35)%N = false /\ (c =? 92)%N = false
  /\ contains (u "---") (c :: p) = false /\ plain p = true.
Proof.
  unfold plain. cbn [existsb contains]. intros H.
  apply andb_true_iff in H as [H H3]. apply andb_true_iff in H as [H1 H2].
  apply negb_true_iff in H1, H2, H3.
  apply orb_false_iff in H1 as [A1 B1]. apply orb_false_iff in H2 as [A2 B2].
  pose proof H3 as H3'. cbn [contains] in H3'.
  apply orb_false_iff in H3' as [_ B3].
  repeat split; auto. now rewrite B1, B2, B3.
Qed.

Lemma plain_no_hash (p : str) :
  plain p = true -> existsb (fun c => (c =? 35)%N) p = false.
Proof.
  unfold plain. intros H. apply andb_true_iff in H as [H _].
  apply andb_true_iff in H as [H _]. now apply negb_true_iff in H.
Qed.

(** No look-ahead of the PRD patterns holds inside a plain body or at the
    newline that ends it. *)
Lemma prd_stop_newline (marker' rest : str) :
  prd_stop (35%N :: marker') (nl :: rest) = false.
Proof. reflexivity. Qed.

Lemma prd_stop_plain (marker' p rest : str) (c : char) :
  plain (c :: p) = true ->
  prd_stop (35%N :: marker') ((c :: p) ++ nl :: rest) = false.
Proof.
  intros H. apply plain_cons in H as (H1 & H2 & H3 & _).
  unfold prd_stop. rewrite (startswith_in_line (u "---")) by reflexivity.
  rewrite (contains_not_startswith _ _ H3). cbn [app].
  rewrite startswith_mismatch by now rewrite N.eqb_sym.
  change (u "\Z") with (92%N :: [90%N]).
  rewrite startswith_mismatch by now rewrite N.eqb_sym.
  reflexivity.
Qed.

Lemma until_plain (marker' p rest : str) :
  plain p = true ->
  until (prd_stop (35%N :: marker')) (p ++ nl :: rest)
  = match until (prd_stop (35%N :: marker')) rest with
    | Some (b, r) => Some (p ++ nl :: b, r)
    | None => None
    end.
Proof.
  induction p as [|c p IH]; intros H.
  - cbn [app]. now rewrite until_step by apply prd_stop_newline.
  - change ((c :: p) ++ nl :: rest) with (c :: (p ++ nl :: rest)).
    rewrite until_step by apply (prd_stop_plain marker' p rest c H).
    apply plain_cons in H as (_ & _ & _ & H). rewrite (IH H).
    destruct (until _ rest) as [[b r]|]; reflexivity.
Qed.

(** [strip] does not see a final newline. *)
Lemma strip_snoc_space (x : str) (c : char) :
  isspace c = true -> strip (x ++ [c]) = strip x.
Proof.
  intros H. unfold strip.
  assert (R : forall y, rstrip (y ++ [c]) = rstrip y).
  { intros y. unfold rstrip. rewrite rev_app_distr. cbn [rev app lstrip].
    now rewrite H. }
  rewrite lstrip_app. destruct (lstrip x) as [|a l] eqn:E.
  - cbn [lstrip]. now rewrite H.
  - apply R.
Qed.

End LayoutFacts.

Section PrdLayoutFacts.

Lemma after_first_body (h p rest : str) :
  hd_error h = Some 35%N -> plain p = true ->
  after_first h (p ++ rest) = after_first h rest.
Proof.
  destruct h as [|c h']; [discriminate|]. intros [= ->] H.
  apply after_first_plain. now apply plain_no_hash.
Qed.

Lemma startswith_self (l x : str) : startswith l (l ++ x) = true.
Proof. unfold startswith. now rewrite after_app. Qed.

Lemma prd_stop_sep (marker x : str) : prd_stop marker (u "---" ++ x) = true.
Proof.
  unfold prd_stop. rewrite startswith_self. rewrite orb_true_r. reflexivity.
Qed.

(** A plain body runs to the separator line that follows it. *)
Lemma until_body_sep (marker p w : str) :
  hd_error marker = Some 35%N -> plain p = true ->
  until (prd_stop marker) (p ++ prd_sep ++ w)
  = Some (p ++ [nl], u "---" ++ [nl] ++ w).
Proof.
  destruct marker as [|c marker']; [discriminate|]. intros [= ->] H.
  unfold prd_sep. rewrite <- !app_assoc.
  change ([nl] ++ u "---" ++ [nl] ++ w) with (nl :: (u "---" ++ [nl] ++ w)).
  rewrite (until_plain marker' p _ H).
  now rewrite until_here by apply prd_stop_sep.
Qed.

Lemma until_body_end (marker p : str) :
  hd_error marker = Some 35%N -> plain p = true ->
  until (prd_stop marker) (p ++ prd_end) = Some (p ++ [nl], u "---").
Proof.
  destruct marker as [|c marker']; [discriminate|]. intros [= ->] H.
  unfold prd_end.
  change ([nl] ++ u "---") with (nl :: (u "---" ++ [])).
  rewrite (until_plain marker' p _ H).
  rewrite until_here by apply prd_stop_sep. now rewrite app_nil_r.
Qed.

Lemma prd_stop_line_start (marker rest : str) :
  hd_error marker = Some 35%N -> prd_stop marker (nl :: rest) = false.
Proof.
  destruct marker as [|c marker']; [discriminate|]. now intros [= ->].
Qed.

Lemma until_line_body_sep (marker p w : str) :
  hd_error marker = Some 35%N -> plain p = true ->
  until (prd_stop marker) ([nl] ++ p ++ prd_sep ++ w)
  = Some (nl :: p ++ [nl], u "---" ++ [nl] ++ w).
Proof.
  intros M H. cbn [app].
  rewrite until_step by now apply prd_stop_line_start.
  now rewrite (until_body_sep marker p w M H).
Qed.

Lemma until_line_body_end (marker p : str) :
  hd_error marker = Some 35%N -> plain p = true ->
  until (prd_stop marker) ([nl] ++ p ++ prd_end)
  = Some (nl :: p ++ [nl], u "---").
Proof.
  intros M H. cbn [app].
  rewrite until_step by now apply prd_stop_line_start.
  now rewrite (until_body_end marker p M H).
Qed.

Variables doc stories metrics weeks risk_items : str.
Hypothesis plain_doc : plain doc = true.
Hypothesis plain_stories : plain stories = true.
Hypothesis plain_metrics : plain metrics = true.
Hypothesis plain_weeks : plain weeks = true.
Hypothesis plain_risks : plain risk_items = true.

Ltac skip_to_heading :=
  repeat first
         [ rewrite never_in_skip by (vm_compute; reflexivity)
         | rewrite after_first_body by (reflexivity || assumption)
         | rewrite after_first_here ].

Lemma layout_stories_block :
  re_search stories_re (prd_layout doc stories metrics weeks risk_items)
  = Some (Some (nl :: stories ++ [nl]),
          u "---" ++ [nl]
          ++ u "## 📊 Success Metrics" ++ [nl] ++ metrics ++ prd_sep
          ++ (u "## ⏱️ Timeline" ++ [nl]) ++ weeks ++ prd_sep
          ++ u "## ⚠️ Risks" ++ [nl] ++ risk_items ++ prd_end).
Proof.
  change stories_re
    with (heading_re (u "## 👤 User Stories") (prd_ahead (u "## "))).
  rewrite prd_search. unfold block_after, prd_layout.
  skip_to_heading.
  now rewrite until_line_body_sep by (reflexivity || assumption).
Qed.

Lemma layout_metrics_block :
  re_search metrics_re (prd_layout doc stories metrics weeks risk_items)
  = Some (Some (nl :: metrics ++ [nl]),
          u "---" ++ [nl]
          ++ (u "## ⏱️ Timeline" ++ [nl]) ++ weeks ++ prd_sep
          ++ u "## ⚠️ Risks" ++ [nl] ++ risk_items ++ prd_end).
Proof.
  change metrics_re
    with (heading_re (u "## 📊 Success Metrics") (prd_ahead (u "## "))).
  rewrite prd_search. unfold block_after, prd_layout.
  skip_to_heading.
  now rewrite until_line_body_sep by (reflexivity || assumption).
Qed.

Lemma layout_timeline_block :
  re_search timeline_re (prd_layout doc stories metrics weeks risk_items)
  = Some (Some (weeks ++ [nl]),
          u "---" ++ [nl]
          ++ u "## ⚠️ Risks" ++ [nl] ++ risk_items ++ prd_end).
Proof.
  change timeline_re
    with (heading_re (u "## ⏱️ Timeline" ++ [nl]) (prd_ahead (u "##"))).
  rewrite prd_search. unfold block_after, prd_layout.
  skip_to_heading.
  now rewrite until_body_sep by (reflexivity || assumption).
Qed.

Lemma layout_risks_block :
  re_search risks_re (prd_layout doc stories metrics weeks risk_items)
  = Some (Some (nl :: risk_items ++ [nl]), u "---").
Proof.
  change risks_re
    with (heading_re (u "## ⚠️ Risks") (prd_ahead (u "##"))).
  rewrite prd_search. unfold block_after, prd_layout.
  skip_to_heading.
  now rewrite until_line_body_end by (reflexivity || assumption).
Qed.

End PrdLayoutFacts.

Lemma lines_cons (s : str) : exists l ls, lines s = l :: ls.
Proof.
  induction s as [|c s (l & ls & IH)]; cbn [lines]; [eauto|].
  destruct (c =? nl)%N; [eauto|]. rewrite IH. eauto.
Qed.

Lemma lines_snoc_nl (s : str) : lines (s ++ [nl]) = lines s ++ [[]].
Proof.
  induction s as [|c s IH]; [reflexivity|]. cbn [app lines].
  destruct (c =? nl)%N; [now rewrite IH|].
  rewrite IH. destruct (lines_cons s) as (l & ls & ->). reflexivity.
Qed.

(** The empty lines around a body add no item. *)
Lemma items_by_line_framed (marker head s : str) :
  marker <> [] ->
  items_by_line marker head (nl :: s ++ [nl]) = items_by_line marker head s.
Proof.
  intros M. unfold items_by_line. cbn [lines].
  change (nl =? nl)%N with true. cbn iota. rewrite lines_snoc_nl.
  assert (E : first_item marker head [] = None).
  { cbn [first_item]. rewrite after_cat.
    destruct marker; [contradiction|reflexivity]. }
  cbn [flat_map]. rewrite flat_map_app. cbn [flat_map].
  rewrite E. cbn [app]. now rewrite app_nil_r.
Qed.

(** X17: a reply laid out as the PRD prompt asks (the five sections in
    its order, each closed by a [---] line, bodies without [#], backslash
    and [---]) is taken apart into its bodies: the stories and the bullet
    items of the metrics and risks bodies, cut to five or replaced by the
    defaults, and the trimmed timeline body. *)
Theorem prd_layout_round_trip (doc stories metrics weeks risk_items : str) :
  plain doc = true -> plain stories = true -> plain metrics = true ->
  plain weeks = true -> plain risk_items = true ->
  prd_response (prd_layout doc stories metrics weeks risk_items)
  = {| prd_document := prd_layout doc stories metrics weeks risk_items;
       user_stories :=
         first5_or (stories_by_line stories) default_user_stories;
       success_metrics :=
         first5_or (strip_nonempty (items_by_line (u "- ") [] metrics))
                   default_success_metrics;
       timeline := strip weeks;
       risks :=
         first5_or (strip_nonempty (items_by_line (u "- ") [] risk_items))
                   default_risks |}.
Proof.
  intros D S M W R.
  unfold prd_response, parse_user_stories, parse_success_metrics,
    parse_timeline, parse_risks.
  rewrite (layout_stories_block doc stories metrics weeks risk_items D S).
  rewrite (layout_metrics_block doc stories metrics weeks risk_items D S M).
  rewrite (layout_timeline_block doc stories metrics weeks risk_items
                                 D S M W).
  rewrite (layout_risks_block doc stories metrics weeks risk_items
                              D S M W R).
  cbn zeta. unfold group1. cbn [fst].
  rewrite findall_stories, !findall_bullets.
  rewrite !items_by_line_framed by discriminate.
  rewrite strip_snoc_space by reflexivity.
  reflexivity.
Qed.

Section ApiLayoutFacts.

Lemma after_first_no_hash (h p rest : str) :
  hd_error h = Some 35%N ->
  existsb (fun c => (c =? 35)%N) p = false ->
  after_first h (p ++ rest) = after_first h rest.
Proof.
  destruct h as [|c h']; [discriminate|]. intros [= ->].
  apply after_first_plain.
Qed.

Lemma plain_api_no_hash (p : str) :
  plain_api p = true -> existsb (fun c => (c =? 35)%N) p = false.
Proof.
  unfold plain_api. intros H. apply andb_true_iff in H as [H _].
  now apply negb_true_iff in H.
Qed.

Lemma plain_api_cons (c : char) (p : str) :
  plain_api (c :: p) = true ->
  (c =? 35)%N = false
  /\ contains (u "---SEPARATOR---") (c :: p) = false
  /\ plain_api p = true.
Proof.
  unfold plain_api. cbn [existsb]. intros H.
  apply andb_true_iff in H as [H1 H2]. apply negb_true_iff in H1, H2.
  apply orb_false_iff in H1 as [A1 B1].
  pose proof H2 as H2'. cbn [contains] in H2'.
  apply orb_false_iff in H2' as [_ B2].
  repeat split; auto. now rewrite B1, B2.
Qed.

Lemma api_stop_line_start (marker rest : str) :
  hd_error marker = Some 35%N -> rest <> [] ->
  api_stop marker (nl :: rest) = false.
Proof.
  destruct marker as [|c marker']; [discriminate|]. intros [= ->] R.
  destruct rest as [|c' rest]; [contradiction|]. reflexivity.
Qed.

Lemma api_stop_plain (marker p rest : str) (c : char) :
  hd_error marker = Some 35%N -> plain_api (c :: p) = true ->
  api_stop marker ((c :: p) ++ nl :: rest) = false.
Proof.
  destruct marker as [|a marker']; [discriminate|]. intros [= ->] H.
  apply plain_api_cons in H as (H1 & H2 & _).
  unfold api_stop.
  rewrite (startswith_in_line (u "---SEPARATOR---")) by reflexivity.
  rewrite (contains_not_startswith _ _ H2). cbn [app].
  rewrite startswith_mismatch by now rewrite N.eqb_sym.
  destruct p; reflexivity.
Qed.

Lemma until_plain_api (marker p rest : str) :
  hd_error marker = Some 35%N -> plain_api p = true -> rest <> [] ->
  until (api_stop marker) (p ++ nl :: rest)
  = match until (api_stop marker) rest with
    | Some (b, r) => Some (p ++ nl :: b, r)
    | None => None
    end.
Proof.
  intros M H R. induction p as [|c p IH].
  - cbn [app]. now rewrite until_step by now apply api_stop_line_start.
  - change ((c :: p) ++ nl :: rest) with (c :: (p ++ nl :: rest)).
    rewrite until_step by apply (api_stop_plain marker p rest c M H).
    apply plain_api_cons in H as (_ & _ & H). rewrite (IH H).
    destruct (until _ rest) as [[b r]|]; reflexivity.
Qed.

Lemma api_stop_sep (marker x : str) :
  api_stop marker (u "---SEPARATOR---" ++ x) = true.
Proof.
  unfold api_stop. rewrite startswith_self. rewrite orb_true_r. reflexivity.
Qed.

Lemma until_api_body_sep (marker p w : str) :
  hd_error marker = Some 35%N -> plain_api p = true ->
  until (api_stop marker) (p ++ api_sep ++ w)
  = Some (p ++ [nl], u "---SEPARATOR---" ++ [nl] ++ w).
Proof.
  intros M H. unfold api_sep. rewrite <- !app_assoc.
  change ([nl] ++ u "---SEPARATOR---" ++ [nl] ++ w)
    with (nl :: (u "---SEPARATOR---" ++ [nl] ++ w)).
  rewrite (until_plain_api marker p _ M H) by discriminate.
  now rewrite until_here by apply api_stop_sep.
Qed.

Lemma after_newline_line (title rest : str) :
  no_newline title = true ->
  after_newline (title ++ [nl] ++ rest) = Some rest.
Proof.
  induction title as [|c title IH]; [reflexivity|].
  cbn [no_newline forallb app after_newline]. intros H.
  apply andb_true_iff in H as [H1 H2]. apply negb_true_iff in H1.
  rewrite H1. now apply IH.
Qed.

Variables title docs spec examples : str.
Hypothesis title_one_line : no_newline title = true.
Hypothesis title_no_hash : existsb (fun c => (c =? 35)%N) title = false.
Hypothesis plain_docs : plain_api docs = true.
Hypothesis plain_spec : plain_api spec = true.

Ltac skip_to_api_heading :=
  repeat first
         [ rewrite never_in_skip by (vm_compute; reflexivity)
         | rewrite after_first_no_hash
             by (reflexivity || assumption
                 || (apply plain_api_no_hash; assumption))
         | rewrite after_first_here ].

Lemma layout_markdown_block :
  re_search markdown_re (api_layout title docs spec examples)
  = Some (Some (docs ++ [nl]),
          u "---SEPARATOR---" ++ [nl]
          ++ (u "## 🔗 OpenAPI Spec" ++ [nl]) ++ spec ++ api_sep
          ++ (u "## 💻 Code Examples" ++ [nl]) ++ examples).
Proof.
  rewrite markdown_search. unfold block_after_line, api_layout.
  rewrite after_first_here.
  rewrite (after_newline_line title _ title_one_line).
  now rewrite until_api_body_sep by (reflexivity || assumption).
Qed.

Lemma layout_openapi_block :
  re_search openapi_re (api_layout title docs spec examples)
  = Some (Some (spec ++ [nl]),
          u "---SEPARATOR---" ++ [nl]
          ++ (u "## 💻 Code Examples" ++ [nl]) ++ examples).
Proof.
  rewrite openapi_search. unfold block_after, api_layout.
  skip_to_api_heading.
  now rewrite until_api_body_sep by (reflexivity || assumption).
Qed.

Lemma layout_examples_block :
  exists r,
    re_search examples_re (api_layout title docs spec examples)
    = Some (Some (without_final_newline examples), r).
Proof.
  rewrite examples_search. unfold block_after, api_layout.
  skip_to_api_heading. unfold without_final_newline.
  destruct (until at_dollar examples) as [[b r]|] eqn:U; [eauto|].
  exfalso. revert U. now apply until_total.
Qed.

End ApiLayoutFacts.

(** X18: a reply laid out as the API documentation prompt asks (three
    sections separated by [---SEPARATOR---] lines, documentation and
    specification bodies without [#] and without the separator) gives
    the trimmed documentation and specification, or their defaults when
    blank, and the two slices of the examples body, whatever that body
    contains. *)
Theorem api_layout_round_trip
        (request : APIDocRequest) (title docs spec examples : str) :
  no_newline title = true ->
  existsb (fun c => (c =? 35)%N) title = false ->
  plain_api docs = true -> plain_api spec = true ->
  let block := without_final_newline examples in
  api_response request (api_layout title docs spec examples)
  = {| openapi_spec :=
         if truthy (strip spec) then strip spec else default_openapi_spec;
       markdown_docs :=
         if truthy (strip docs) then strip docs else default_markdown_docs;
       code_examples :=
         [ {| ex_language := language request;
              ex_code := firstn 500 block |};
           {| ex_language := u "JavaScript";
              ex_code := if (500 <? length block)%nat
                         then firstn 500 (skipn 500 block)
                         else block |} ] |}.
Proof.
  intros T1 T2 D S block.
  unfold api_response, parse_markdown_docs, parse_openapi_spec,
    parse_code_examples.
  rewrite (layout_markdown_block title docs spec examples T1 D).
  rewrite (layout_openapi_block title docs spec examples T2 D S).
  destruct (layout_examples_block title docs spec examples T2 D S)
    as [r ->].
  cbn zeta. unfold group1. cbn [fst truthy].
  rewrite !strip_snoc_space by reflexivity.
  reflexivity.
Qed.

Lemma prd_layout_round_trip_witness :
  plain Sample.part_doc = true
  /\ plain Sample.part_risks = true
  /\ prd_response
       (prd_layout Sample.part_doc Sample.part_stories Sample.part_metrics
                   Sample.part_weeks Sample.part_risks)
     = {| prd_document :=
            prd_layout Sample.part_doc Sample.part_stories
                       Sample.part_metrics Sample.part_weeks
                       Sample.part_risks;
          user_stories :=
            first5_or (stories_by_line Sample.part_stories)
                      default_user_stories;
          success_metrics :=
            first5_or
              (strip_nonempty
                 (items_by_line (u "- ") [] Sample.part_metrics))
              default_success_metrics;
          timeline := strip Sample.part_weeks;
          risks :=
            first5_or
              (strip_nonempty (items_by_line (u "- ") [] Sample.part_risks))
              default_risks |}
  /\ first5_or
       (strip_nonempty (items_by_line (u "- ") [] Sample.part_risks))
       default_risks
     = [u "Risk 1: Scope creep"; u "Risk 2: Delay"].
Proof.
  assert (D : plain Sample.part_doc = true) by (vm_compute; reflexivity).
  assert (S : plain Sample.part_stories = true) by (vm_compute; reflexivity).
  assert (M : plain Sample.part_metrics = true) by (vm_compute; reflexivity).
  assert (W : plain Sample.part_weeks = true) by (vm_compute; reflexivity).
  assert (R : plain Sample.part_risks = true) by (vm_compute; reflexivity).
  split; [exact D|]. split; [exact R|]. split.
  - exact (prd_layout_round_trip _ _ _ _ _ D S M W R).
  - vm_compute. reflexivity.
Defined.

Lemma api_layout_round_trip_witness :
  plain_api Sample.part_docs = true
  /\ plain_api Sample.part_spec = true
  /\ openapi_spec
       (api_response Sample.api_request
          (api_layout Sample.part_title Sample.part_docs Sample.part_spec
                      Sample.part_examples))
     = u "{}"
  /\ map ex_code
       (code_examples
          (api_response Sample.api_request
             (api_layout Sample.part_title Sample.part_docs
                         Sample.part_spec Sample.part_examples)))
     = [u "print(ping())"; u "print(ping())"].
Proof.
  assert (T1 : no_newline Sample.part_title = true)
    by (vm_compute; reflexivity).
  assert (T2 : existsb (fun c => (c =? 35)%N) Sample.part_title = false)
    by (vm_compute; reflexivity).
  assert (D : plain_api Sample.part_docs = true)
    by (vm_compute; reflexivity).
  assert (S : plain_api Sample.part_spec = true)
    by (vm_compute; reflexivity).
  split; [exact D|]. split; [exact S|].
  rewrite (api_layout_round_trip Sample.api_request _ _ _ _ T1 T2 D S).
  split; vm_compute; reflexivity.
Defined.
